(** * Request governance of akshare-a-share-skills

    A shallow embedding of [scripts/rate_limiter.py] (pacing limiter,
    backoff retrier, TTL cache, source router) and of the two governed
    requests [scripts/spot.py:get_spot] and [scripts/hist.py:get_hist],
    with the properties the specification states about them.

    Conventions of the embedding.
    - Seconds ([time.time()], [time.sleep], [datetime.now()], delays and
      intervals) are exact rationals [Q]; rounding of binary floats and the
      microsecond grain of [datetime] are not modelled, so what is stated
      about a computed number is an equation over exact numbers or a bound
      that is not strict.  The two places where a number leaves the range of
      its Python type are modelled as the errors they are: the product of a
      float with [2 ** attempt] in [calculate_delay], and the [timedelta] and
      [datetime] of [DataCache.set].  [time.time()] and [datetime.now()] read
      one and the same clock.
    - Python objects that callers hand to the cache are values of [pyval];
      [None] is [PyNone].
    - An exception is its class name, whether the class derives from
      [Exception], and the text [str(e)], as the bytes of its UTF-8 encoding.
      [str.lower] is the interpreter's own ([StrLower]); [lower] is its
      restriction to the ASCII letters.
    - Code with effects runs in the monad [M]: a state transformer over
      [World] that may raise, and that journals every invocation of a caller
      supplied thunk and every [time.sleep].
    - Locks are not modelled: each method body runs atomically, which is what
      [with self._lock] gives it. *)

From Stdlib Require Import ZArith QArith Qminmax Qpower Lqa Lia List String Ascii Bool
  DecimalString.
From stdpp Require Import gmap strings.
Import ListNotations.

Local Open Scope string_scope.
Local Open Scope Z_scope.

(** ** Python values and exceptions *)

#[warnings="-register-all"]
Inductive pyval : Type :=
  | PyNone
  | PyBool (b : bool)
  | PyInt (z : Z)
  | PyStr (s : string)
  | PyList (items : list pyval)
  | PyDict (items : list (string * pyval)).

(** [bool(v)]: what [if v:] tests. *)
Definition truthy (v : pyval) : bool :=
  match v with
  | PyNone => false
  | PyBool b => b
  | PyInt z => negb (z =? 0)
  | PyStr s => negb (String.eqb s "")
  | PyList items => match items with [] => false | _ :: _ => true end
  | PyDict items => match items with [] => false | _ :: _ => true end
  end.

Record exn : Type := mkExn {
  exn_class : string;        (* the class name, for the reader *)
  exn_is_Exception : bool;   (* caught by [except Exception] *)
  exn_str : string           (* str(e) *)
}.

Inductive result (A : Type) : Type :=
  | Ret (a : A)
  | Raise (e : exn).
Arguments Ret {A} a.
Arguments Raise {A} e.

(** [raise None]: what [raise last_error] does while [last_error] is [None]. *)
Definition TypeError_raise_None : exn :=
  mkExn "TypeError" true "exceptions must derive from BaseException".

(** [time.sleep] of a negative number. *)
Definition ValueError_sleep : exn :=
  mkExn "ValueError" true "sleep length must be non-negative".

(** [x * n] for a float [x] and an int [n] from [2 ** 1024] on. *)
Definition OverflowError_int_to_float : exn :=
  mkExn "OverflowError" true "int too large to convert to float".

(** [str(n)] of an int, as [%d] and an f-string print it. *)
Definition str_of_int (n : Z) : string := NilZero.string_of_int (Z.to_int n).

(** [timedelta(seconds=n)] for an int [n] of too many days: the day count
    does not fit a C int, or it does and is beyond [timedelta.max]. *)
Definition OverflowError_C_int : exn :=
  mkExn "OverflowError" true "Python int too large to convert to C int".

Definition OverflowError_days (days : Z) : exn :=
  mkExn "OverflowError" true
        ("days=" ++ str_of_int days ++ "; must have magnitude <= 999999999").

(** [datetime + timedelta] outside the years 1 to 9999. *)
Definition OverflowError_date : exn :=
  mkExn "OverflowError" true "date value out of range".

(** ** Strings: [str.lower] and [in] *)

(** ASCII case folding: what [str.lower] does to the letters A-Z. *)
Definition lower_ascii (c : ascii) : ascii :=
  let n := nat_of_ascii c in
  if (Nat.leb 65 n && Nat.leb n 90)%bool then ascii_of_nat (n + 32) else c.

Fixpoint lower (s : string) : string :=
  match s with
  | EmptyString => EmptyString
  | String c rest => String (lower_ascii c) (lower rest)
  end.

(** [needle in hay] on strings. *)
Fixpoint contains (needle hay : string) : bool :=
  if String.prefix needle hay then true
  else match hay with
       | EmptyString => false
       | String _ rest => contains needle rest
       end.

(** Every byte is below 128. *)
Definition is_ascii (s : string) : bool :=
  forallb (fun c => Nat.ltb (nat_of_ascii c) 128) (list_ascii_of_string s).

(** [str.lower()] is the interpreter's and follows the Unicode case tables:
    beyond A-Z it lowers accented and Greek capitals, and a few characters
    lower into ASCII (U+212A KELVIN SIGN becomes [k], U+0130 becomes [i]
    and a combining dot).  The embedding takes the function as given, with
    the one fact about it that the properties below rely on: it maps every
    ASCII character as [lower] does and leaves neighbours next to each
    other, so an ASCII needle found in the folded text is found in the
    lower-cased text.  (The converse fails: ["NETWOR\u212a"] lower-cases to
    a text that contains ["network"].) *)
Class StrLower : Type := {
  str_lower : string → string;
  str_lower_finds : ∀ needle s,
    is_ascii needle = true →
    contains needle (lower s) = true → contains needle (str_lower s) = true
}.

(** The folding as an instance: what [str.lower] is on text whose only
    cased characters are the ASCII letters. *)
Definition ascii_str_lower : StrLower :=
  {| str_lower := lower; str_lower_finds := fun _ _ _ found => found |}.

(** ** What a run leaves in its journal *)

Inductive event : Type :=
  | EvCall              (* the caller's thunk was invoked *)
  | EvSleep (d : Q).    (* time.sleep(d) returned *)

Definition is_call (ev : event) : bool :=
  match ev with EvCall => true | EvSleep _ => false end.

Definition is_sleep (ev : event) : bool :=
  match ev with EvCall => false | EvSleep _ => true end.

Definition calls (j : list event) : nat := List.length (List.filter is_call j).
Definition sleeps (j : list event) : nat := List.length (List.filter is_sleep j).

(** [2 ** 53], the grain of [random.random()]. *)
Definition two53 : positive := 9007199254740992%positive.

(** Comparisons of seconds, as booleans. *)
Definition Qltb (x y : Q) : bool := negb (Qle_bool y x).

(** ** The four classes: state and pure methods *)

Module RateLimiter.

Record t : Type := mk {
  min_interval : Q;
  max_interval : Q;
  enable_random : bool;
  _last_request_time : Q
}.

(** Defaults of the signature: [min_interval=1.0, max_interval=3.0,
    enable_random=True]. *)
Definition __init__ (min_interval max_interval : Q) (enable_random : bool) : t :=
  mk min_interval max_interval enable_random 0.

Definition set_last_request_time (self : t) (now : Q) : t :=
  mk (min_interval self) (max_interval self) (enable_random self) now.

(** [set_interval(min_interval, max_interval=None)]. *)
Definition set_interval (self : t) (min_interval : Q) (max_interval' : option Q) : t :=
  mk min_interval
     (match max_interval' with Some m => m | None => max_interval self end)
     (enable_random self) (_last_request_time self).

End RateLimiter.

Module RetryHandler.

(** [base_delay] and [max_delay] are floats, as the signature annotates them
    and as its defaults ([5.0], [60.0]) are. *)
Record t : Type := mk {
  max_retries : Z;
  base_delay : Q;
  max_delay : Q;
  enable_random : bool
}.

Definition __init__ (max_retries : Z) (base_delay max_delay : Q)
    (enable_random : bool) : t :=
  mk max_retries base_delay max_delay enable_random.

Definition retryable_keywords : list string :=
  [ "connection"; "timeout"; "reset"; "refused"; "403"; "429";
    "rate limit"; "too many request"; "forbidden"; "network" ].

Definition is_retryable_error {L : StrLower} (error : exn) : bool :=
  let error_str := str_lower (exn_str error) in
  existsb (fun keyword => contains keyword error_str) retryable_keywords.

End RetryHandler.

(** *** [datetime] and [timedelta]

    A [datetime] is the seconds from 1970-01-01 00:00:00 to it, a
    [timedelta] its length in seconds.  [datetime.min] is 0001-01-01
    00:00:00 and [datetime.max] is 9999-12-31 23:59:59.999999. *)
Definition datetime_min : Q := -62135596800.
Definition datetime_max : Q := 253402300799999999 # 1000000.

(** [timedelta(seconds=seconds)] for an int: the seconds are carried into
    days, which must fit a C int and then lie within [timedelta.min.days]
    and [timedelta.max.days], 999999999 either way. *)
Definition timedelta (seconds : Z) : result Z :=
  let days := (seconds / 86400)%Z in
  if ((days <? -2147483648) || (2147483647 <? days))%bool then Raise OverflowError_C_int
  else if ((days <? -999999999) || (999999999 <? days))%bool
       then Raise (OverflowError_days days)
       else Ret seconds.

(** [now + delta]: the sum must be a [datetime] again. *)
Definition datetime_add (now : Q) (delta : Z) : result Q :=
  let sum := (now + inject_Z delta)%Q in
  if (Qle_bool datetime_min sum && Qle_bool sum datetime_max)%bool then Ret sum
  else Raise OverflowError_date.

Module DataCache.

(** [self._cache] maps a key to [(value, expire_time)]. *)
Record t : Type := mk {
  ttl_seconds : Z;
  _cache : gmap string (pyval * Q)
}.

Definition __init__ (ttl_seconds : Z) : t := mk ttl_seconds ∅.

(** [cache.ttl_seconds = ttl], the assignment callers make before [set]. *)
Definition set_ttl_seconds (self : t) (ttl : Z) : t := mk ttl (_cache self).

(** [get(key)]; [now] is what [datetime.now()] reads.  The result is the
    returned value and the cache afterwards. *)
Definition get (self : t) (now : Q) (key : string) : pyval * t :=
  match _cache self !! key with
  | Some (value, expire_time) =>
      if Qltb now expire_time then (value, self)
      else (PyNone, mk (ttl_seconds self) (delete key (_cache self)))
  | None => (PyNone, self)
  end.

(** [datetime.now() + timedelta(seconds=self.ttl_seconds)]. *)
Definition expire_time (self : t) (now : Q) : result Q :=
  match timedelta (ttl_seconds self) with
  | Ret delta => datetime_add now delta
  | Raise e => Raise e
  end.

(** [set(key, value)]: when the expiry cannot be computed the error leaves
    [set] before the dict is touched. *)
Definition set (self : t) (now : Q) (key : string) (value : pyval) : result t :=
  match expire_time self now with
  | Ret expiry => Ret (mk (ttl_seconds self) (<[key := (value, expiry)]> (_cache self)))
  | Raise e => Raise e
  end.

(** The expiry of a [set] at [now] under [ttl] is a [datetime]. *)
Definition storable (ttl : Z) (now : Q) : Prop :=
  (-86399999913600 <= ttl <= 86399999999999)%Z ∧
  (datetime_min <= now + inject_Z ttl)%Q ∧ (now + inject_Z ttl <= datetime_max)%Q.

Definition clear (self : t) : t := mk (ttl_seconds self) ∅.

End DataCache.

Module SourceRouter.

Record t : Type := mk {
  sources : gmap string (list string);
  _failed_sources : gmap string (gset string)
}.

Definition DEFAULT_SOURCES : gmap string (list string) :=
  <["info" := ["em"; "xq"]]>
  (<["spot" := ["em"; "sina"]]>
  (<["hist" := ["em"; "tx"; "sina"]]>
  (<["minute" := ["em"; "sina"]]>
  (<["intraday" := ["em"; "sina"]]> ∅)))).

(** [self.sources = sources or self.DEFAULT_SOURCES]: [None] and the empty
    dict both select the default table. *)
Definition __init__ (sources : option (gmap string (list string))) : t :=
  mk (match sources with
      | Some m => if decide (m = ∅) then DEFAULT_SOURCES else m
      | None => DEFAULT_SOURCES
      end) ∅.

(** [self.sources.get(operation, [])]. *)
Definition available_sources (self : t) (operation : string) : list string :=
  default [] (sources self !! operation).

(** [self._failed_sources.get(operation, set())]. *)
Definition failed (self : t) (operation : string) : gset string :=
  default ∅ (_failed_sources self !! operation).

Definition candidates (self : t) (operation : string) : list string :=
  List.filter (fun s => bool_decide (s ∉ failed self operation))
              (available_sources self operation).

(** [preferred] is [None] or a string; the empty string is falsy. *)
Definition get_source (self : t) (operation : string) (preferred : option string)
    : option string :=
  let candidates := candidates self operation in
  match preferred with
  | Some p =>
      if (negb (String.eqb p "") && bool_decide (p ∈ candidates))%bool then Some p
      else head candidates
  | None => head candidates
  end.

Definition mark_failed (self : t) (operation source : string) : t :=
  mk (sources self)
     (<[operation := {[source]} ∪ failed self operation]> (_failed_sources self)).

Definition mark_success (self : t) (operation source : string) : t :=
  match _failed_sources self !! operation with
  | Some fs => mk (sources self) (<[operation := fs ∖ {[source]}]> (_failed_sources self))
  | None => self
  end.

Definition reset (self : t) : t := mk (sources self) ∅.

End SourceRouter.

(** ** The world and the monad *)

Section Machinery.

(** State of whatever the caller's thunks talk to (the upstream servers). *)
Context {U : Type}.

(** The process: the clock, the module globals of [rate_limiter.py], and two
    feeds that stand for what the program cannot decide: [lags] gives the
    time that passes before each reading of the clock, [entropy] the 53-bit
    integers behind successive [random.random()] results. *)
Record World : Type := mkWorld {
  clock : Q;
  lags : list Q;
  entropy : list Z;
  _rate_limiter : option RateLimiter.t;
  _retry_handler : option RetryHandler.t;
  _cache : option DataCache.t;
  _source_router : option SourceRouter.t;
  upstream : U
}.

Definition with_clock (w : World) (c : Q) (l : list Q) : World :=
  mkWorld c l (entropy w) (_rate_limiter w) (_retry_handler w) (_cache w)
          (_source_router w) (upstream w).

Definition with_entropy (w : World) (e : list Z) : World :=
  mkWorld (clock w) (lags w) e (_rate_limiter w) (_retry_handler w) (_cache w)
          (_source_router w) (upstream w).

Definition with_rate_limiter (w : World) (l : RateLimiter.t) : World :=
  mkWorld (clock w) (lags w) (entropy w) (Some l) (_retry_handler w) (_cache w)
          (_source_router w) (upstream w).

Definition with_retry_handler (w : World) (h : RetryHandler.t) : World :=
  mkWorld (clock w) (lags w) (entropy w) (_rate_limiter w) (Some h) (_cache w)
          (_source_router w) (upstream w).

Definition with_cache (w : World) (c : DataCache.t) : World :=
  mkWorld (clock w) (lags w) (entropy w) (_rate_limiter w) (_retry_handler w) (Some c)
          (_source_router w) (upstream w).

Definition with_source_router (w : World) (r : SourceRouter.t) : World :=
  mkWorld (clock w) (lags w) (entropy w) (_rate_limiter w) (_retry_handler w) (_cache w)
          (Some r) (upstream w).

(** A computation: from a world to an outcome, the world afterwards and the
    journal of what happened in between. *)
Definition M (A : Type) : Type := World -> result A * World * list event.

(** A zero-argument callable supplied by a caller.  It cannot write the
    journal: [invoke] does that for it. *)
Definition thunk (A : Type) : Type := World -> result A * World.

Definition ret {A} (a : A) : M A := fun w => (Ret a, w, []).

Definition raise {A} (e : exn) : M A := fun w => (Raise e, w, []).

(** The outcome of a pure computation, in the monad. *)
Definition lift {A} (r : result A) : M A := fun w => (r, w, []).

Definition bind {A B} (m : M A) (k : A -> M B) : M B := fun w =>
  match m w with
  | (Ret a, w1, j1) =>
      match k a w1 with
      | (r, w2, j2) => (r, w2, (j1 ++ j2)%list)
      end
  | (Raise e, w1, j1) => (Raise e, w1, j1)
  end.

(** [try: ... except BaseException as e:] with the outcome as a value. *)
Definition attempt {A} (m : M A) : M (result A) := fun w =>
  match m w with
  | (r, w1, j1) => (Ret r, w1, j1)
  end.

Definition invoke {A} (func : thunk A) : M A := fun w =>
  match func w with
  | (r, w1) => (r, w1, [EvCall])
  end.

End Machinery.

Arguments World U : clear implicits.

Notation "x <- m ; k" := (bind m (fun x => k))
  (at level 20, m at level 100, k at level 200, only parsing).
Notation "m ;; k" := (bind m (fun _ => k))
  (at level 100, k at level 200, only parsing, right associativity).

(** ** Effects and the effectful methods *)

Section Governance.

Context {U : Type} {L : StrLower}.
Abbreviation M := (@M U).
Abbreviation thunk := (@thunk U).

(** [time.time()] and [datetime.now()]: the clock, after the next lag. *)
Definition time_time : M Q := fun w =>
  let now := (clock w + hd 0 (lags w))%Q in
  (Ret now, with_clock w now (tl (lags w)), []).

Definition datetime_now : M Q := time_time.

(** [time.sleep(d)]: [ValueError] on a negative argument; otherwise the clock
    moves on by [d] (sleeping longer is part of the lag before the next
    reading of the clock). *)
Definition sleep (d : Q) : M unit := fun w =>
  if Qltb d 0 then (Raise ValueError_sleep, w, [])
  else (Ret tt, with_clock w (clock w + d)%Q (lags w), [EvSleep d]).

(** [random.random()]: [k / 2**53] for the next 53-bit integer [k]. *)
Definition random_random : M Q := fun w =>
  let k := (hd 0 (entropy w) mod Zpos two53)%Z in
  (Ret (Qmake k two53), with_entropy w (tl (entropy w)), []).

(** [random.uniform(a, b)] is [a + (b-a) * random()].  Over exact numbers
    the draw stays short of [b]; in binary floats the sum is rounded and can
    be [b] itself ([random.uniform(1, 3)] is [3.0] for the largest
    [random()]), which is why a draw is only ever stated to lie in the
    closed interval. *)
Definition random_uniform (a b : Q) : M Q :=
  r <- random_random ;
  ret (a + (b - a) * r)%Q.

(** *** headers.py

    [init_headers] builds the requests session once and [rotate_ua] writes a
    random User-Agent into it.  Neither touches the clock, the limiter or
    any other state modelled here, so both are the identity on [World]. *)
Definition init_headers : M unit := ret tt.
Definition rotate_ua : M unit := ret tt.

(** *** RateLimiter.wait *)

Definition wait (self : RateLimiter.t) : M RateLimiter.t :=
  init_headers ;;
  rotate_ua ;;
  now <- time_time ;
  let elapsed := (now - RateLimiter._last_request_time self)%Q in
  (if Qltb elapsed (RateLimiter.min_interval self) then
     wait_time <- (if RateLimiter.enable_random self
                   then random_uniform (RateLimiter.min_interval self)
                                       (RateLimiter.max_interval self)
                   else ret (RateLimiter.min_interval self)) ;
     let sleep_time := (wait_time - elapsed)%Q in
     if Qltb 0 sleep_time then sleep sleep_time else ret tt
   else ret tt) ;;
  released <- time_time ;
  ret (RateLimiter.set_last_request_time self released).

(** *** RetryHandler.calculate_delay and RetryHandler.execute *)

(** [2 ** attempt] is an int for [attempt >= 0] and the float [2.0 ** attempt]
    below; [Qpower] covers both.  The product with the float [base_delay]
    converts the int to a float first, which fails from [2 ** 1024] on,
    whatever [base_delay] is. *)
Definition calculate_delay (self : RetryHandler.t) (attempt : Z) : M Q :=
  if (1024 <=? attempt)%Z then raise OverflowError_int_to_float
  else
    let delay := (RetryHandler.base_delay self * Qpower 2 attempt)%Q in
    let delay := Qmin delay (RetryHandler.max_delay self) in
    if RetryHandler.enable_random self then
      jitter <- random_uniform 1 3 ;
      ret (delay + jitter)%Q
    else ret delay.

(** [range(n)]. *)
Definition range (n : Z) : list Z := List.map Z.of_nat (seq 0 (Z.to_nat n)).

(** The [for attempt in ...] loop over what is left of the range, and the
    [raise last_error] after it. *)
Fixpoint execute_loop {A} (self : RetryHandler.t) (func : thunk A)
    (attempts : list Z) (last_error : option exn) : M A :=
  match attempts with
  | [] =>
      match last_error with
      | Some e => raise e
      | None => raise TypeError_raise_None
      end
  | attempt_no :: rest =>
      r <- attempt (invoke func) ;
      match r with
      | Ret v => ret v
      | Raise e =>
          if exn_is_Exception e then
            if negb (RetryHandler.is_retryable_error e) then raise e
            else
              (if (attempt_no <? RetryHandler.max_retries self)%Z then
                 delay <- calculate_delay self attempt_no ;
                 sleep delay
               else ret tt) ;;
              execute_loop self func rest (Some e)
          else raise e
      end
  end.

Definition execute {A} (self : RetryHandler.t) (func : thunk A) : M A :=
  execute_loop self func (range (RetryHandler.max_retries self + 1)) None.

(** *** The module globals and their lazy getters *)

Definition get_rate_limiter : M RateLimiter.t := fun w =>
  match _rate_limiter w with
  | Some limiter => (Ret limiter, w, [])
  | None =>
      let limiter := RateLimiter.__init__ 1 3 true in
      (Ret limiter, with_rate_limiter w limiter, [])
  end.

Definition get_retry_handler : M RetryHandler.t := fun w =>
  match _retry_handler w with
  | Some handler => (Ret handler, w, [])
  | None =>
      let handler := RetryHandler.__init__ 3 5 60 true in
      (Ret handler, with_retry_handler w handler, [])
  end.

Definition get_cache : M DataCache.t := fun w =>
  match _cache w with
  | Some cache => (Ret cache, w, [])
  | None =>
      let cache := DataCache.__init__ 300 in
      (Ret cache, with_cache w cache, [])
  end.

Definition get_source_router : M SourceRouter.t := fun w =>
  match _source_router w with
  | Some router => (Ret router, w, [])
  | None =>
      let router := SourceRouter.__init__ None in
      (Ret router, with_source_router w router, [])
  end.

Definition configure_rate_limiter (min_interval max_interval : Q)
    (enable_random : bool) : M unit := fun w =>
  (Ret tt, with_rate_limiter w (RateLimiter.__init__ min_interval max_interval enable_random), []).

Definition configure_retry_handler (max_retries : Z) (base_delay max_delay : Q)
    : M unit := fun w =>
  (Ret tt, with_retry_handler w (RetryHandler.__init__ max_retries base_delay max_delay true), []).

(** The singletons are shared objects: a method that mutates [self] is a
    method on the object the global names, so its effect is stored back. *)
Definition store_rate_limiter (limiter : RateLimiter.t) : M unit := fun w =>
  (Ret tt, with_rate_limiter w limiter, []).

Definition store_cache (cache : DataCache.t) : M unit := fun w =>
  (Ret tt, with_cache w cache, []).

Definition store_source_router (router : SourceRouter.t) : M unit := fun w =>
  (Ret tt, with_source_router w router, []).

(** [rate_limiter.get_rate_limiter().wait()]. *)
Definition limiter_wait : M unit :=
  limiter <- get_rate_limiter ;
  limiter' <- wait limiter ;
  store_rate_limiter limiter'.

(** [rate_limiter.get_cache().get(key)]; [datetime.now()] is evaluated only
    when the key is in the dict. *)
Definition cache_get (key : string) : M pyval :=
  cache <- get_cache ;
  now <- (if bool_decide (is_Some (DataCache._cache cache !! key))
          then datetime_now else ret 0%Q) ;
  store_cache (snd (DataCache.get cache now key)) ;;
  ret (fst (DataCache.get cache now key)).

(** [cache = get_cache(); cache.ttl_seconds = ttl; cache.set(key, value)].
    The assignment is to the shared object: it stays when [set] raises. *)
Definition cache_store (ttl : Z) (key : string) (value : pyval) : M unit :=
  cache <- get_cache ;
  let cache := DataCache.set_ttl_seconds cache ttl in
  store_cache cache ;;
  now <- datetime_now ;
  cache <- lift (DataCache.set cache now key value) ;
  store_cache cache.

(** *** spot.py and hist.py *)

Section Requests.

(** The upstream calls: [_fetch_tx(symbol)] and [_fetch_tx_hist(symbol,
    start, end, period, adjust)] perform an HTTP request and decode it; what
    they return or raise is the server's to decide. *)
Variable _fetch_tx : string -> thunk pyval.
Variable _fetch_tx_hist : string -> string -> string -> string -> string -> thunk pyval.

Definition spot_cache_key (symbol source : string) : string :=
  "spot_" ++ symbol ++ "_" ++ source.

(** [get_spot] from [rate_limiter.get_rate_limiter().wait()] on: what runs
    when the cache gave nothing usable. *)
Definition get_spot_fetch (symbol source : string) (use_cache : bool) : M pyval :=
  limiter_wait ;;
  handler <- get_retry_handler ;
  r <- attempt (execute handler (_fetch_tx symbol)) ;
  match r with
  | Raise e => raise e                      (* except Exception as e: raise *)
  | Ret result =>
      let output := PyDict [ ("symbol", PyStr symbol);
                             ("source", PyStr "tx");
                             ("quote", result) ] in
      (if use_cache then cache_store 30 (spot_cache_key symbol source) output
       else ret tt) ;;
      ret output
  end.

Definition get_spot (symbol source : string) (use_cache : bool) : M pyval :=
  if use_cache then
    cached <- cache_get (spot_cache_key symbol source) ;
    if truthy cached then ret cached
    else get_spot_fetch symbol source use_cache
  else get_spot_fetch symbol source use_cache.

Definition hist_cache_key (symbol start end_ period adjust : string) : string :=
  "hist_" ++ symbol ++ "_" ++ start ++ "_" ++ end_ ++ "_" ++ period ++ "_" ++ adjust.

Definition get_hist_fetch (symbol start end_ period adjust source : string)
    (use_cache : bool) : M pyval :=
  limiter_wait ;;
  handler <- get_retry_handler ;
  r <- attempt (execute handler (_fetch_tx_hist symbol start end_ period adjust)) ;
  match r with
  | Raise e => raise e                      (* except Exception as e: raise *)
  | Ret result =>
      let output := PyDict [ ("symbol", PyStr symbol);
                             ("start", PyStr start);
                             ("end", PyStr end_);
                             ("period", PyStr period);
                             ("adjust", PyStr adjust);
                             ("source", PyStr "tx");
                             ("data", result) ] in
      (if use_cache
       then cache_store 3600 (hist_cache_key symbol start end_ period adjust) output
       else ret tt) ;;
      ret output
  end.

Definition get_hist (symbol start end_ period adjust source : string)
    (use_cache : bool) : M pyval :=
  if use_cache then
    cached <- cache_get (hist_cache_key symbol start end_ period adjust) ;
    if truthy cached then ret cached
    else get_hist_fetch symbol start end_ period adjust source use_cache
  else get_hist_fetch symbol start end_ period adjust source use_cache.

End Requests.

End Governance.

(** *** cli.py: [cmd_spot]

    [spot.get_spot(args.symbol, use_cache)] passes [use_cache] in the
    position of [source]; [get_spot]'s own [use_cache] keeps its default,
    [True].  [source] enters [get_spot] only through the f-string of the
    cache key, where a bool reads ["True"] or ["False"]. *)
Definition str_of_bool (b : bool) : string := if b then "True" else "False".

Definition cmd_spot {U : Type} {L : StrLower} (_fetch_tx : string → thunk (U:=U) pyval)
    (symbol : string) (no_cache : bool) : M (U:=U) pyval :=
  let use_cache := negb no_cache in
  get_spot _fetch_tx symbol (str_of_bool use_cache) true.

(** ** spot.py and hist.py: decoding the answer

    [_fetch_tx] and [_fetch_tx_hist] after the HTTP request: the code that
    turns the decoded JSON into the result, on the JSON lists it is written
    for ([qt], a list of fields; [day_data], a list of rows). *)

Definition result_bind {A B : Type} (r : result A) (k : A → result B) : result B :=
  match r with
  | Ret a => k a
  | Raise e => Raise e
  end.

Definition IndexError_list : exn := mkExn "IndexError" true "list index out of range".

(** [l[i]] on a list. *)
Definition list_item (l : list pyval) (i : nat) : result pyval :=
  match l !! i with
  | Some v => Ret v
  | None => Raise IndexError_list
  end.

(** [l[i] if len(l) > i else ''] *)
Definition list_item_or_empty (l : list pyval) (i : nat) : pyval :=
  match l !! i with
  | Some v => v
  | None => PyStr ""
  end.

(** The market prefix both fetchers put before the symbol. *)
Definition market_of (symbol : string) : string :=
  if String.prefix "6" symbol then "sh"
  else if (String.prefix "0" symbol || String.prefix "3" symbol)%bool then "sz"
  else "sh".

Definition full_symbol (symbol : string) : string := market_of symbol ++ symbol.

(** [ValueError(f"无法获取 {symbol} 的行情数据")]. *)
Definition no_data_error (symbol : string) : exn :=
  mkExn "ValueError" true ("无法获取 " ++ symbol ++ " 的行情数据").

(** [_fetch_tx] from [if not qt:] on. *)
Definition quote_from_qt (symbol : string) (qt : list pyval) : result pyval :=
  match qt with
  | [] => Raise (no_data_error symbol)
  | _ :: _ =>
      result_bind (list_item qt 2) (fun code =>
      result_bind (list_item qt 1) (fun name =>
      result_bind (list_item qt 3) (fun latest =>
      result_bind (list_item qt 4) (fun prev_close =>
      result_bind (list_item qt 5) (fun open =>
      result_bind (list_item qt 6) (fun volume =>
      result_bind (list_item qt 7) (fun amount =>
      Ret (PyDict [ ("股票代码", code);
                    ("股票名称", name);
                    ("最新价", latest);
                    ("昨收", prev_close);
                    ("今开", open);
                    ("成交量", volume);
                    ("成交额", amount);
                    ("最高", list_item_or_empty qt 22);
                    ("最低", list_item_or_empty qt 21);
                    ("涨跌额", list_item_or_empty qt 47);
                    ("涨跌幅", list_item_or_empty qt 46) ]))))))))
  end.

(** [type(v).__name__]. *)
Definition type_name (v : pyval) : string :=
  match v with
  | PyNone => "NoneType"
  | PyBool _ => "bool"
  | PyInt _ => "int"
  | PyStr _ => "str"
  | PyList _ => "list"
  | PyDict _ => "dict"
  end.

(** What [v.replace] raises on a value that is not a string. *)
Definition AttributeError_replace (v : pyval) : exn :=
  mkExn "AttributeError" true
        ("'" ++ type_name v ++ "' object has no attribute 'replace'").

(** [s.replace('-', '')]. *)
Fixpoint remove_dashes (s : string) : string :=
  match s with
  | EmptyString => EmptyString
  | String c rest =>
      if Ascii.eqb c "-" then remove_dashes rest else String c (remove_dashes rest)
  end.

(** The dict [_fetch_tx_hist] appends for a row. *)
Definition day_row (item : list pyval) : result pyval :=
  result_bind (list_item item 0) (fun date =>
  result_bind (list_item item 1) (fun open =>
  result_bind (list_item item 2) (fun close =>
  result_bind (list_item item 3) (fun high =>
  result_bind (list_item item 4) (fun low =>
  result_bind (list_item item 5) (fun volume =>
  Ret (PyDict [ ("日期", date); ("开盘", open); ("收盘", close);
                ("最高", high); ("最低", low); ("成交量", volume) ]))))))).

(** The [for item in day_data:] loop of [_fetch_tx_hist]; [start <= date_str
    <= end] compares strings, character by character. *)
Fixpoint filter_day_data (start end_ : string) (day_data : list pyval)
    : result (list pyval) :=
  match day_data with
  | [] => Ret []
  | PyList item :: rest =>
      match list_item item 0 with
      | Raise e => Raise e
      | Ret (PyStr date) =>
          let date_str := remove_dashes date in
          if (String.leb start date_str && String.leb date_str end_)%bool then
            result_bind (day_row item) (fun row =>
            result_bind (filter_day_data start end_ rest) (fun rows =>
            Ret (row :: rows)))
          else filter_day_data start end_ rest
      | Ret v => Raise (AttributeError_replace v)
      end
  | _ :: rest => filter_day_data start end_ rest
  end.

(** A row the loop is written for: a list of at least six fields whose
    first is a string.  Anything that is not a list passes. *)
Definition row_well_formed (v : pyval) : Prop :=
  match v with
  | PyList item => (∃ date, item !! 0%nat = Some (PyStr date)) ∧ (6 <= length item)%nat
  | _ => True
  end.

(** A row whose date, dashes removed, lies between [start] and [end]. *)
Definition row_in_range (start end_ : string) (v : pyval) : bool :=
  match v with
  | PyList (PyStr date :: _) =>
      (String.leb start (remove_dashes date) && String.leb (remove_dashes date) end_)%bool
  | _ => false
  end.

(** The six fields of a row, as the dict of the result. *)
Definition row_fields (v : pyval) : pyval :=
  match v with
  | PyList item =>
      PyDict [ ("日期", nth 0 item PyNone); ("开盘", nth 1 item PyNone);
               ("收盘", nth 2 item PyNone); ("最高", nth 3 item PyNone);
               ("最低", nth 4 item PyNone); ("成交量", nth 5 item PyNone) ]
  | _ => PyNone
  end.

(** *** rate_limiter.py: the [cached] decorator

    The wrapper that [cached(prefix, ttl)(func)] builds, applied to some
    arguments: [cache_key] is what [cache._make_key] derives from the prefix
    and the arguments (an MD5 digest, taken as given) and [func] stands for
    the decorated function applied to them.  The wrapper makes no use of
    [ttl]. *)
Definition is_None (v : pyval) : bool :=
  match v with PyNone => true | _ => false end.

(** [cache.set(key, value)] on the shared cache.  The wrapper holds the cache
    in a local across the call of [func]; the global [_cache] is bound once,
    in [get_cache], and never rebound, so the object the local names is the
    one the global gives, with whatever [func] did to it. *)
Definition cache_set {U : Type} (key : string) (value : pyval) : M (U:=U) unit :=
  cache <- get_cache ;
  now <- datetime_now ;
  cache <- lift (DataCache.set cache now key value) ;
  store_cache cache.

Definition cached_wrapper {U : Type} (ttl : Z) (cache_key : string)
    (func : thunk (U:=U) pyval) : M (U:=U) pyval :=
  cached_value <- cache_get cache_key ;
  if negb (is_None cached_value) then ret cached_value
  else
    result <- invoke func ;
    cache_set cache_key result ;;
    ret result.

(** ** Sequences of router calls *)

Inductive router_call : Type :=
  | CallGetSource (operation : string) (preferred : option string)
  | CallMarkFailed (operation source : string)
  | CallMarkSuccess (operation source : string)
  | CallReset.

Definition router_step (self : SourceRouter.t) (c : router_call) : SourceRouter.t :=
  match c with
  | CallGetSource _ _ => self           (* get_source writes nothing *)
  | CallMarkFailed operation source => SourceRouter.mark_failed self operation source
  | CallMarkSuccess operation source => SourceRouter.mark_success self operation source
  | CallReset => SourceRouter.reset self
  end.

Definition router_run (self : SourceRouter.t) (cs : list router_call) : SourceRouter.t :=
  fold_left router_step cs self.

(** The invariant of the specification: every failed-set lies within the
    candidate list configured for its operation. *)
Definition failed_within_candidates (self : SourceRouter.t) : Prop :=
  ∀ operation source,
    source ∈ SourceRouter.failed self operation →
    source ∈ SourceRouter.available_sources self operation.

(** A [mark_failed] call that names a configured candidate of its operation. *)
Definition marks_a_candidate (sources : gmap string (list string)) (c : router_call) : Prop :=
  match c with
  | CallMarkFailed operation source => source ∈ default [] (sources !! operation)
  | _ => True
  end.

(** [r] is the first entry of [available] that is not in [failed], or [None]
    when there is none. *)
Definition first_surviving (available : list string) (failed : gset string)
    (r : option string) : Prop :=
  match r with
  | Some s =>
      ∃ i : nat, available !! i = Some s ∧ (s ∉ failed) ∧
        (∀ (j : nat) s', (j < i)%nat → available !! j = Some s' → s' ∈ failed)
  | None => ∀ s, s ∈ available → s ∈ failed
  end.

(** ** Sample processes

    Concrete worlds, policies and thunks on which the properties below are
    run.  The upstream is a counter of the requests it has received. *)

Definition world_at (now : Q) (lags : list Q) (entropy : list Z) : World nat :=
  mkWorld now lags entropy None None None None 0%nat.

(** The policy of [get_retry_handler()]. *)
Definition default_handler : RetryHandler.t := RetryHandler.__init__ 3 5 60 true.

(** A server that answers every request with a timeout. *)
Definition timeout_error : exn := mkExn "ReadTimeout" true "HTTPSConnectionPool: Read timed out. (read timeout=10)".

Definition always_times_out : thunk pyval := fun w =>
  (Raise timeout_error,
   mkWorld (clock w) (lags w) (entropy w) (_rate_limiter w) (_retry_handler w)
           (_cache w) (_source_router w) (S (upstream w))).

(** A server whose answer cannot be decoded: [KeyError('data')]. *)
Definition decode_error : exn := mkExn "KeyError" true "'data'".

Definition always_garbled : thunk pyval := fun w =>
  (Raise decode_error,
   mkWorld (clock w) (lags w) (entropy w) (_rate_limiter w) (_retry_handler w)
           (_cache w) (_source_router w) (S (upstream w))).

(** A server that answers. *)
Definition quote : pyval := PyDict [("最新价", PyStr "10.50")].

Definition always_answers : thunk pyval := fun w =>
  (Ret quote,
   mkWorld (clock w) (lags w) (entropy w) (_rate_limiter w) (_retry_handler w)
           (_cache w) (_source_router w) (S (upstream w))).

(** ** Vocabulary of the statements *)




(** A thunk that raises a retryable [Exception] whenever it is invoked. *)
Definition fails_retryably {U A : Type} {L : StrLower} (func : thunk (U:=U) A) : Prop :=
  ∀ w, ∃ e w', func w = (Raise e, w') ∧
               exn_is_Exception e = true ∧
               RetryHandler.is_retryable_error e = true.

(** The longest sleep [time.sleep] takes, in whole seconds: the length
    becomes a signed 64-bit count of nanoseconds, and one that does not fit
    is refused with [OverflowError]. *)
Definition sleep_max : Q := 9223372036.

(** Every sleep of a journal lasted between [lo] and [hi]. *)
Definition sleeps_within (lo hi : Q) (j : list event) : Prop :=
  ∀ d, In (EvSleep d) j → (lo <= d)%Q ∧ (d <= hi)%Q.

(** The [if attempt < self.max_retries:] block of [execute]: the sleep
    between two attempts, when there is one. *)
Definition backoff {U : Type} (self : RetryHandler.t) (attempt_no : Z) : M (U:=U) unit :=
  if (attempt_no <? RetryHandler.max_retries self)%Z then
    delay <- calculate_delay self attempt_no ;
    sleep delay
  else ret tt.

(** What every governed request does between its cache lookup and its
    [except] clause: pace, then fetch through the retry handler. *)
Definition governed_fetch {U A : Type} {L : StrLower} (func : thunk (U:=U) A) : M (U:=U) A :=
  limiter_wait ;;
  handler <- get_retry_handler ;
  execute handler func.

(** The retry policy in force allows at least the first attempt. *)
Definition handler_attempts {U : Type} (w : World U) : Prop :=
  ∀ handler, _retry_handler w = Some handler → (0 <= RetryHandler.max_retries handler)%Z.

(** The [if use_cache:] block that opens [get_spot] and [get_hist]: what
    [cached] holds after it, [None] when the cache is bypassed. *)
Definition cache_lookup {U : Type} (use_cache : bool) (key : string) : M (U:=U) pyval :=
  if use_cache then cache_get key else ret PyNone.


(** A process started at second 1000 whose clock then stands still, with
    the router already built, and with [random.random()] about to return
    [0.0] every time. *)
Definition quiet_world : World nat :=
  mkWorld 1000 [] [] None None None (Some (SourceRouter.__init__ None)) 0%nat.



(** A cache holding one entry that expires at second 300. *)
Definition one_entry_cache : DataCache.t :=
  DataCache.mk 300 (<["k" := (PyInt 1, 0 + inject_Z 300)%Q]> ∅).

(** The default router after [mark_failed("spot", "em")]. *)
Definition router_em_failed : SourceRouter.t :=
  SourceRouter.mark_failed (SourceRouter.__init__ None) "spot" "em".

Definition sample_router_calls : list router_call :=
  [ CallMarkFailed "spot" "em"; CallGetSource "spot" (Some "em");
    CallMarkFailed "hist" "tx"; CallMarkSuccess "spot" "em";
    CallMarkFailed "spot" "sina"; CallReset; CallMarkFailed "info" "xq" ].

(** ** Vocabulary of the further properties *)

(** A thunk that talks to the upstream and to nothing else: what it returns
    or raises, and what the upstream becomes, depend on the upstream alone. *)
Definition upstream_thunk {U A : Type} (respond : U → result A * U) : thunk (U:=U) A :=
  fun w =>
    (fst (respond (upstream w)),
     mkWorld (clock w) (lags w) (entropy w) (_rate_limiter w) (_retry_handler w)
             (_cache w) (_source_router w) (snd (respond (upstream w)))).

(** The upstream after [n] requests. *)
Fixpoint upstream_after {U A : Type} (respond : U → result A * U) (n : nat) (u : U) : U :=
  match n with
  | O => u
  | S n' => upstream_after respond n' (snd (respond u))
  end.

(** Two worlds that differ at most in the clock and the two feeds: the
    module globals and the upstream are the same. *)
Definition same_objects {U : Type} (w w' : World U) : Prop :=
  _rate_limiter w' = _rate_limiter w ∧
  _retry_handler w' = _retry_handler w ∧
  _cache w' = _cache w ∧
  _source_router w' = _source_router w ∧
  upstream w' = upstream w.

(** A server that times out on its first two requests and answers from the
    third on. *)
Definition flaky_server (served : nat) : result pyval * nat :=
  (if Nat.ltb served 2 then Raise timeout_error else Ret quote, S served).

(** Ctrl-C while the request is in flight. *)
Definition interrupt : exn := mkExn "KeyboardInterrupt" false "connection timeout".

Definition interrupted : thunk (U:=nat) pyval := fun w => (Raise interrupt, w).

(** ** minute.py: [get_minute]

    The two akshare calls stand for the upstream.  The DataFrame they return
    is represented by its records, the list that
    [json.loads(df.to_json(orient="records"))] makes of it.  [get_minute]
    calls itself on failover; [depth] bounds how deep, with Python's
    [RecursionError] at the bottom. *)

Section Minute.

Context {U : Type} {L : StrLower}.
Variable stock_zh_a_minute : string → Z → string → thunk (U:=U) (list pyval).
Variable stock_zh_a_hist_min_em : string → Z → string → thunk (U:=U) (list pyval).

Definition RecursionError : exn :=
  mkExn "RecursionError" true "maximum recursion depth exceeded".

(** The closure [_fetch]: anything but ["sina"] goes to Eastmoney. *)
Definition minute_fetch (symbol : string) (period : Z) (source adjust : string)
    : thunk (U:=U) (list pyval) :=
  if String.eqb source "sina" then
    let symbol_with_prefix :=
      (if String.prefix "6" symbol then "sh" ++ symbol else "sz" ++ symbol) in
    stock_zh_a_minute symbol_with_prefix period adjust
  else
    stock_zh_a_hist_min_em symbol period adjust.

Definition minute_cache_key (symbol : string) (period : Z) (source adjust : string) : string :=
  "minute_" ++ symbol ++ "_" ++ str_of_int period ++ "_" ++ source ++ "_" ++ adjust.

Fixpoint get_minute (depth : nat) (symbol : string) (period : Z)
    (source adjust : string) (use_cache : bool) : M (U:=U) pyval :=
  match depth with
  | O => raise RecursionError
  | S depth' =>
      cached <- cache_lookup use_cache (minute_cache_key symbol period source adjust) ;
      if truthy cached then ret cached
      else
        limiter_wait ;;
        handler <- get_retry_handler ;
        r <- attempt (execute handler (minute_fetch symbol period source adjust)) ;
        match r with
        | Raise e =>
            if exn_is_Exception e then          (* except Exception as e: *)
              router <- get_source_router ;
              match SourceRouter.get_source router "minute" (Some source) with
              | Some alt_source =>
                  if (negb (String.eqb alt_source "")
                      && negb (String.eqb alt_source source))%bool
                  then
                    store_source_router (SourceRouter.mark_failed router "minute" source) ;;
                    get_minute depth' symbol period alt_source adjust use_cache
                  else raise e
              | None => raise e
              end
            else raise e
        | Ret records =>
            let output := PyDict [ ("symbol", PyStr symbol);
                                   ("source", PyStr source);
                                   ("period", PyInt period);
                                   ("adjust", PyStr adjust);
                                   ("count", PyInt (Z.of_nat (length records)));
                                   ("data", PyList records) ] in
            (if use_cache
             then cache_store 300 (minute_cache_key symbol period source adjust) output
             else ret tt) ;;
            ret output
        end
  end.

End Minute.

(** A minute-data upstream that always times out, counting its requests. *)
Definition minute_times_out : string → Z → string → thunk (U:=nat) (list pyval) :=
  fun _ _ _ w =>
    (Raise timeout_error,
     mkWorld (clock w) (lags w) (entropy w) (_rate_limiter w) (_retry_handler w)
             (_cache w) (_source_router w) (S (upstream w))).

(** The [except Exception as e:] clause of [get_minute], for a failure [e]
    of the fetch: consult the router, fail over or re-raise. *)
Definition minute_except {U : Type} {L : StrLower}
    (stock_zh_a_minute stock_zh_a_hist_min_em : string → Z → string → thunk (U:=U) (list pyval))
    (depth : nat) (symbol : string) (period : Z) (source adjust : string)
    (use_cache : bool) (e : exn) : M (U:=U) pyval :=
  if exn_is_Exception e then
    router <- get_source_router ;
    match SourceRouter.get_source router "minute" (Some source) with
    | Some alt_source =>
        if (negb (String.eqb alt_source "") && negb (String.eqb alt_source source))%bool
        then
          store_source_router (SourceRouter.mark_failed router "minute" source) ;;
          get_minute stock_zh_a_minute stock_zh_a_hist_min_em
                     depth symbol period alt_source adjust use_cache
        else raise e
    | None => raise e
    end
  else raise e.

(** Rows as the Tencent interface sends them, and a row cut short. *)
Definition day_2 : pyval :=
  PyList [PyStr "2024-01-02"; PyStr "10.00"; PyStr "10.20"; PyStr "10.30"; PyStr "9.90";
          PyStr "1000"].
Definition day_3 : pyval :=
  PyList [PyStr "2024-01-03"; PyStr "10.20"; PyStr "10.10"; PyStr "10.40"; PyStr "10.00";
          PyStr "1200"].
Definition day_4_short : pyval := PyList [PyStr "2024-01-04"; PyStr "10.10"].

(** A retry policy without jitter, and one with a negative base delay. *)
Definition plain_handler : RetryHandler.t := RetryHandler.__init__ 3 5 60 false.
Definition negative_handler : RetryHandler.t := RetryHandler.__init__ 2 (-5) 60 false.


(** A function that returns [None], counting its calls. *)
Definition answers_None : thunk pyval := fun w =>
  (Ret PyNone,
   mkWorld (clock w) (lags w) (entropy w) (_rate_limiter w) (_retry_handler w)
           (_cache w) (_source_router w) (S (upstream w))).


(** What [get_spot("600519")] makes of [quote]. *)
Definition spot_output : pyval :=
  PyDict [("symbol", PyStr "600519"); ("source", PyStr "tx"); ("quote", quote)].

(** The paced fetch of minute data from a source, in the quiet process. *)
Definition minute_attempt (source : string) (w : World nat)
    : result (list pyval) * World nat * list event :=
  governed_fetch (L:=ascii_str_lower)
    (minute_fetch minute_times_out minute_times_out "000001" 5 source "") w.

(** * Properties *)

(** ** Comparisons *)

Lemma Qltb_true (x y : Q) : Qltb x y = true ↔ (x < y)%Q.
Proof.
  unfold Qltb. rewrite negb_true_iff. split; intros H.
  - apply Qnot_le_lt. intros Hle. apply Qle_bool_iff in Hle. congruence.
  - destruct (Qle_bool y x) eqn:E; [|reflexivity].
    apply Qle_bool_iff in E. exfalso. apply (Qlt_not_le _ _ H E).
Qed.

Lemma Qltb_false (x y : Q) : Qltb x y = false ↔ (y <= x)%Q.
Proof.
  unfold Qltb. rewrite negb_false_iff. apply Qle_bool_iff.
Qed.

(** ** TTL cache *)


Lemma get_unexpired (self : DataCache.t) (now : Q) (key : string) value expire_time :
  DataCache._cache self !! key = Some (value, expire_time) →
  (now < expire_time)%Q →
  DataCache.get self now key = (value, self).
Proof.
  intros H Hlt. unfold DataCache.get. rewrite H.
  apply Qltb_true in Hlt. by rewrite Hlt.
Qed.

Lemma get_expired (self : DataCache.t) (now : Q) (key : string) value expire_time :
  DataCache._cache self !! key = Some (value, expire_time) →
  (expire_time <= now)%Q →
  DataCache.get self now key =
    (PyNone, DataCache.mk (DataCache.ttl_seconds self) (delete key (DataCache._cache self))).
Proof.
  intros H Hle. unfold DataCache.get. rewrite H.
  apply Qltb_false in Hle. by rewrite Hle.
Qed.

(** C7. [DataCache.get] returns the stored value exactly when the time read is
    strictly before the entry's expiry; at or past the expiry it returns
    [None] and the entry is gone from the cache afterwards (the other entries
    stay); whatever value other than [None] it returns is a stored, unexpired
    one. *)
Theorem get_never_stale (self : DataCache.t) (now : Q) (key : string) :
  (∀ value expire_time,
     DataCache._cache self !! key = Some (value, expire_time) →
     ((now < expire_time)%Q → DataCache.get self now key = (value, self)) ∧
     ((expire_time <= now)%Q →
        fst (DataCache.get self now key) = PyNone ∧
        DataCache._cache (snd (DataCache.get self now key)) !! key = None ∧
        ∀ key', key' ≠ key →
          DataCache._cache (snd (DataCache.get self now key)) !! key'
          = DataCache._cache self !! key')) ∧
  (∀ value,
     fst (DataCache.get self now key) = value → value ≠ PyNone →
     ∃ expire_time,
       DataCache._cache self !! key = Some (value, expire_time) ∧ (now < expire_time)%Q).
Proof.
  split.
  - intros value expire_time H. split; intros Ht.
    + by apply get_unexpired with expire_time.
    + rewrite (get_expired _ _ _ _ _ H Ht). simpl.
      split; [reflexivity|]. split; [apply lookup_delete_eq|].
      intros key' Hne. by apply lookup_delete_ne.
  - intros value Hget Hne. unfold DataCache.get in Hget.
    destruct (DataCache._cache self !! key) as [[v e]|] eqn:E; simpl in Hget.
    + destruct (Qltb now e) eqn:Hlt; simpl in Hget.
      * subst v. exists e. split; [reflexivity|]. by apply Qltb_true.
      * congruence.
    + congruence.
Qed.

(** [set] within the range of [datetime] stores the entry; a [set] that
    returned did just that. *)
Lemma set_storable (self : DataCache.t) (now : Q) (key : string) (value : pyval) :
  DataCache.storable (DataCache.ttl_seconds self) now →
  DataCache.set self now key value
  = Ret (DataCache.mk (DataCache.ttl_seconds self)
           (<[key := (value, (now + inject_Z (DataCache.ttl_seconds self))%Q)]>
              (DataCache._cache self))).
Proof.
  intros (Httl & Hlo & Hhi).
  unfold DataCache.set, DataCache.expire_time, timedelta, datetime_add.
  set (ttl := DataCache.ttl_seconds self) in *.
  assert (Hdays : (-999999999 <= ttl / 86400 <= 999999999)%Z).
  { split.
    - change (-999999999)%Z with (-86399999913600 / 86400)%Z. apply Z.div_le_mono; lia.
    - change 999999999%Z with (86399999999999 / 86400)%Z. apply Z.div_le_mono; lia. }
  assert ((ttl / 86400 <? -2147483648)%Z = false) as -> by lia.
  assert ((2147483647 <? ttl / 86400)%Z = false) as -> by lia.
  assert ((ttl / 86400 <? -999999999)%Z = false) as -> by lia.
  assert ((999999999 <? ttl / 86400)%Z = false) as -> by lia.
  simpl orb. cbv iota.
  apply Qle_bool_iff in Hlo, Hhi. by rewrite Hlo, Hhi.
Qed.

Lemma set_returned (self : DataCache.t) (now : Q) (key : string) (value : pyval) c :
  DataCache.set self now key value = Ret c →
  c = DataCache.mk (DataCache.ttl_seconds self)
        (<[key := (value, (now + inject_Z (DataCache.ttl_seconds self))%Q)]>
           (DataCache._cache self)).
Proof.
  unfold DataCache.set, DataCache.expire_time, timedelta, datetime_add.
  destruct (_ || _)%bool; [discriminate|].
  destruct (_ || _)%bool; [discriminate|].
  destruct (_ && _)%bool; [|discriminate].
  by intros [= <-].
Qed.

(** C3, as the code has it.  [set(key, value)] has no ttl argument: the entry
    expires at [now + self.ttl_seconds], the field callers assign just before
    the call, and is stored whenever that instant is a [datetime] (it is not
    when the ttl is beyond [timedelta] or carries the sum outside the years 1
    to 9999: [set] then raises [OverflowError]).  A later [set] on the same
    key, after assigning another ttl, replaces value and expiry; the cache
    is then what it would be had the first [set] never happened, and a
    lookup answers by the new expiry alone. *)
Theorem set_replaces_value_and_expiry (self : DataCache.t) (now1 now2 : Q)
    (ttl2 : Z) (key : string) (v1 v2 : pyval) :
  DataCache.storable (DataCache.ttl_seconds self) now1 →
  DataCache.storable ttl2 now2 →
  ∃ c1 c2,
    DataCache.set self now1 key v1 = Ret c1 ∧
    DataCache.set (DataCache.set_ttl_seconds c1 ttl2) now2 key v2 = Ret c2 ∧
    DataCache._cache c1 !! key
      = Some (v1, (now1 + inject_Z (DataCache.ttl_seconds self))%Q) ∧
    DataCache._cache c2 !! key = Some (v2, (now2 + inject_Z ttl2)%Q) ∧
    DataCache.set (DataCache.set_ttl_seconds self ttl2) now2 key v2 = Ret c2 ∧
    ∀ t, fst (DataCache.get c2 t key)
         = if Qltb t (now2 + inject_Z ttl2)%Q then v2 else PyNone.
Proof.
  intros H1 H2. eexists _, _.
  split; [by apply set_storable|].
  split; [by apply set_storable|].
  split; [apply lookup_insert_eq|]. split; [apply lookup_insert_eq|].
  split.
  - rewrite set_storable by exact H2. simpl. by rewrite insert_insert_eq.
  - intros t. unfold DataCache.get. simpl.
    rewrite lookup_insert_eq. by destruct (Qltb t _).
Qed.

(** ** Source router *)

Lemma head_filter_first_surviving (available : list string) (failed : gset string) :
  first_surviving available failed
    (head (List.filter (fun s => bool_decide (s ∉ failed)) available)).
Proof.
  induction available as [|a rest IH]; simpl.
  - intros s Hs. by apply elem_of_nil in Hs.
  - destruct (bool_decide (a ∉ failed)) eqn:E; simpl.
    + apply bool_decide_eq_true in E.
      exists 0%nat. split; [reflexivity|]. split; [exact E|].
      intros j s' Hj. lia.
    + apply bool_decide_eq_false in E.
      assert (Ha : a ∈ failed) by (destruct (decide (a ∈ failed)); [done|contradiction]).
      destruct (head (List.filter _ rest)) as [s|]; simpl in *.
      * destruct IH as (i & Hi & Hs & Hbefore).
        exists (S i). split; [exact Hi|]. split; [exact Hs|].
        intros [|j] s' Hj Hl; simpl in Hl.
        -- by inversion Hl; subst.
        -- apply (Hbefore j); [lia|exact Hl].
      * intros s Hs. apply elem_of_cons in Hs as [->|Hs]; [exact Ha|by apply IH].
Qed.

Lemma elem_of_candidates (self : SourceRouter.t) (operation s : string) :
  s ∈ SourceRouter.candidates self operation ↔
  s ∈ SourceRouter.available_sources self operation ∧ s ∉ SourceRouter.failed self operation.
Proof.
  unfold SourceRouter.candidates. rewrite !list_elem_of_In, filter_In.
  by rewrite bool_decide_eq_true.
Qed.

(** C8. [get_source] returns [preferred] itself when it is a non-empty string
    among the configured candidates of the operation that are not marked
    failed; otherwise it returns the first configured candidate, in priority
    order, that is not marked failed; and it returns [None] when every
    configured candidate of the operation is marked failed. *)
Theorem get_source_selection (self : SourceRouter.t) (operation : string)
    (preferred : option string) :
  let available := SourceRouter.available_sources self operation in
  let failed := SourceRouter.failed self operation in
  (∀ p, preferred = Some p → p ≠ "" → p ∈ available → p ∉ failed →
        SourceRouter.get_source self operation preferred = Some p) ∧
  ((∀ p, preferred = Some p → p = "" ∨ p ∉ available ∨ p ∈ failed) →
        first_surviving available failed
          (SourceRouter.get_source self operation preferred)) ∧
  ((∀ s, s ∈ available → s ∈ failed) →
        SourceRouter.get_source self operation preferred = None).
Proof.
  simpl. split; [|split].
  - intros p -> Hne Hin Hnf. unfold SourceRouter.get_source.
    assert (String.eqb p "" = false) as -> by (by apply String.eqb_neq).
    rewrite bool_decide_eq_true_2; [reflexivity|].
    apply elem_of_candidates. by split.
  - intros Hother. unfold SourceRouter.get_source.
    destruct preferred as [p|]; [|apply head_filter_first_surviving].
    destruct (String.eqb p "") eqn:Ep; simpl; [apply head_filter_first_surviving|].
    rewrite bool_decide_eq_false_2; [apply head_filter_first_surviving|].
    rewrite elem_of_candidates. intros [Hin Hnf].
    destruct (Hother p eq_refl) as [->|[H|H]]; [|by apply H|by apply Hnf].
    by rewrite String.eqb_refl in Ep.
  - intros Hall.
    assert (Hnil : SourceRouter.candidates self operation = []).
    { destruct (SourceRouter.candidates self operation) as [|s rest] eqn:E; [reflexivity|].
      assert (Hs : s ∈ SourceRouter.candidates self operation)
        by (rewrite E; apply elem_of_cons; by left).
      apply elem_of_candidates in Hs as [Hin Hnf]. exfalso. by apply Hnf, Hall. }
    unfold SourceRouter.get_source. rewrite Hnil.
    destruct preferred as [p|]; [|reflexivity].
    rewrite bool_decide_eq_false_2; [by rewrite andb_false_r|].
    intros H. by apply elem_of_nil in H.
Qed.

Lemma router_step_sources (self : SourceRouter.t) (c : router_call) :
  SourceRouter.sources (router_step self c) = SourceRouter.sources self.
Proof.
  destruct c; simpl; try reflexivity.
  unfold SourceRouter.mark_success.
  by destruct (SourceRouter._failed_sources self !! operation).
Qed.

Lemma router_step_invariant (self : SourceRouter.t) (c : router_call) :
  failed_within_candidates self →
  marks_a_candidate (SourceRouter.sources self) c →
  failed_within_candidates (router_step self c).
Proof.
  intros Hinv Hc op src.
  unfold SourceRouter.available_sources. rewrite router_step_sources.
  specialize (Hinv op src). unfold SourceRouter.available_sources in Hinv.
  destruct c as [o p|o s|o s|]; simpl in *.
  - exact Hinv.
  - unfold SourceRouter.failed, SourceRouter.mark_failed; simpl.
    destruct (decide (o = op)) as [->|Hne].
    + rewrite lookup_insert_eq; simpl. intros Hin.
      apply elem_of_union in Hin as [Hin|Hin].
      * apply elem_of_singleton in Hin. subst src. exact Hc.
      * by apply Hinv.
    + rewrite lookup_insert_ne by done. exact Hinv.
  - unfold SourceRouter.failed, SourceRouter.mark_success in *.
    destruct (SourceRouter._failed_sources self !! o) as [fs|] eqn:E; [|exact Hinv].
    simpl. destruct (decide (o = op)) as [->|Hne].
    + rewrite lookup_insert_eq; simpl. rewrite E in Hinv; simpl in Hinv.
      intros Hin. apply Hinv. by apply elem_of_difference in Hin as [Hin _].
    + rewrite lookup_insert_ne by done. exact Hinv.
  - unfold SourceRouter.failed, SourceRouter.reset; simpl.
    rewrite lookup_empty; simpl. intros Hin. by apply not_elem_of_empty in Hin.
Qed.

(** C4, as the code has it.  [mark_failed] adds whatever source it is given,
    so the failed-sets stay within the candidate lists as long as every
    [mark_failed] call names a configured candidate of its operation: in
    every state reached from a new router by [get_source], [mark_failed],
    [mark_success] and [reset] calls of that kind, each failed-set is a
    subset of its operation's candidate list. *)
Theorem failed_subset_when_marking_candidates
    (sources : option (gmap string (list string))) (cs : list router_call) :
  Forall (marks_a_candidate (SourceRouter.sources (SourceRouter.__init__ sources))) cs →
  failed_within_candidates (router_run (SourceRouter.__init__ sources) cs).
Proof.
  assert (Hgen : ∀ self,
    failed_within_candidates self →
    Forall (marks_a_candidate (SourceRouter.sources self)) cs →
    failed_within_candidates (router_run self cs)).
  { induction cs as [|c cs IH]; intros self Hinv Hcs; simpl; [exact Hinv|].
    inversion Hcs as [|? ? Hc Hrest]; subst.
    apply IH.
    - by apply router_step_invariant.
    - by rewrite router_step_sources. }
  apply Hgen. intros op src Hin.
  unfold SourceRouter.failed, SourceRouter.__init__ in Hin; simpl in Hin.
  rewrite lookup_empty in Hin; simpl in Hin. by apply not_elem_of_empty in Hin.
Qed.

(** ** Source router: further properties *)

Lemma head_candidates_usable (self : SourceRouter.t) (operation s : string) :
  head (SourceRouter.candidates self operation) = Some s →
  s ∈ SourceRouter.available_sources self operation ∧ s ∉ SourceRouter.failed self operation.
Proof.
  intros H. apply elem_of_candidates.
  destruct (SourceRouter.candidates self operation) as [|c rest]; [discriminate|].
  simpl in H. inversion H; subst. apply elem_of_cons. by left.
Qed.

Lemma get_source_usable (self : SourceRouter.t) (operation : string)
    (preferred : option string) (s : string) :
  SourceRouter.get_source self operation preferred = Some s →
  s ∈ SourceRouter.available_sources self operation ∧ s ∉ SourceRouter.failed self operation.
Proof.
  unfold SourceRouter.get_source. destruct preferred as [p|].
  - destruct (negb (String.eqb p "") && bool_decide (p ∈ SourceRouter.candidates self operation))%bool
      eqn:E.
    + intros H. inversion H; subst.
      apply andb_true_iff in E as [_ E]. apply bool_decide_eq_true in E.
      by apply elem_of_candidates.
    + apply head_candidates_usable.
  - apply head_candidates_usable.
Qed.

(** X1. Whatever [get_source] returns is a configured candidate of the
    operation that is not marked failed: it never hands out a failed or an
    unknown source, whatever [preferred] says. *)
Theorem get_source_returns_usable (self : SourceRouter.t) (operation : string)
    (preferred : option string) (s : string) :
  SourceRouter.get_source self operation preferred = Some s →
  s ∈ SourceRouter.available_sources self operation ∧ s ∉ SourceRouter.failed self operation.
Proof. apply get_source_usable. Qed.

Lemma failed_mark_failed (self : SourceRouter.t) (operation source operation' : string) :
  SourceRouter.failed (SourceRouter.mark_failed self operation source) operation'
  = if decide (operation = operation')
    then {[source]} ∪ SourceRouter.failed self operation'
    else SourceRouter.failed self operation'.
Proof.
  unfold SourceRouter.failed, SourceRouter.mark_failed; simpl.
  destruct (decide (operation = operation')) as [->|Hne].
  - by rewrite lookup_insert_eq.
  - by rewrite lookup_insert_ne.
Qed.

(** [get_source] looks at the router only through the configured list and
    the failed-set of the operation asked for. *)
Lemma get_source_ext (r1 r2 : SourceRouter.t) (operation : string)
    (preferred : option string) :
  SourceRouter.available_sources r1 operation = SourceRouter.available_sources r2 operation →
  SourceRouter.failed r1 operation = SourceRouter.failed r2 operation →
  SourceRouter.get_source r1 operation preferred = SourceRouter.get_source r2 operation preferred.
Proof.
  intros Ha Hf. unfold SourceRouter.get_source, SourceRouter.candidates.
  by rewrite Ha, Hf.
Qed.

(** X2. After [mark_failed(operation, source)], [get_source] for that
    operation never returns [source], preferred or not; and the answers for
    every other operation are what they were. *)
Theorem mark_failed_withdraws_source (self : SourceRouter.t) (operation source : string) :
  (∀ preferred,
     SourceRouter.get_source (SourceRouter.mark_failed self operation source)
                             operation preferred ≠ Some source) ∧
  (∀ operation' preferred, operation' ≠ operation →
     SourceRouter.get_source (SourceRouter.mark_failed self operation source)
                             operation' preferred
     = SourceRouter.get_source self operation' preferred).
Proof.
  split.
  - intros preferred H. apply get_source_usable in H as [_ Hnf].
    apply Hnf. rewrite failed_mark_failed. rewrite decide_True by done.
    apply elem_of_union. left. by apply elem_of_singleton.
  - intros operation' preferred Hne. apply get_source_ext; [reflexivity|].
    rewrite failed_mark_failed. by rewrite decide_False.
Qed.

(** X3. [mark_failed] is idempotent: marking the same source of the same
    operation twice leaves the router exactly as marking it once. *)
Theorem mark_failed_idempotent (self : SourceRouter.t) (operation source : string) :
  SourceRouter.mark_failed (SourceRouter.mark_failed self operation source) operation source
  = SourceRouter.mark_failed self operation source.
Proof.
  unfold SourceRouter.mark_failed at 1 3. simpl.
  rewrite failed_mark_failed, decide_True by done.
  unfold SourceRouter.mark_failed; simpl. rewrite insert_insert_eq.
  f_equal. f_equal. by rewrite (assoc_L (∪)), union_idemp_L.
Qed.

(** X4. [mark_success] undoes [mark_failed]: for a source that was not marked
    failed before, marking it failed and then successful leaves every answer
    of [get_source], for every operation and every preferred source, as it
    was. *)
Theorem mark_success_undoes_mark_failed (self : SourceRouter.t)
    (operation source : string) :
  source ∉ SourceRouter.failed self operation →
  ∀ operation' preferred,
    SourceRouter.get_source
      (SourceRouter.mark_success (SourceRouter.mark_failed self operation source)
                                 operation source)
      operation' preferred
    = SourceRouter.get_source self operation' preferred.
Proof.
  intros Hnf operation' preferred. apply get_source_ext.
  - unfold SourceRouter.mark_success, SourceRouter.mark_failed; simpl.
    by rewrite lookup_insert_eq.
  - unfold SourceRouter.mark_success. unfold SourceRouter.mark_failed at 1; simpl.
    rewrite lookup_insert_eq. unfold SourceRouter.failed at 1; simpl.
    destruct (decide (operation = operation')) as [<-|Hne].
    + rewrite lookup_insert_eq; simpl.
      apply set_eq. intros x.
      rewrite elem_of_difference, elem_of_union, elem_of_singleton. split.
      * intros [[->|H] Hn]; [by contradict Hn|exact H].
      * intros H. split; [by right|]. intros ->. by apply Hnf.
    + rewrite lookup_insert_ne by done. rewrite lookup_insert_ne by done. reflexivity.
Qed.

(** X5. After [reset()] nothing is failed any more: [get_source] returns
    [preferred] whenever it is a non-empty configured candidate, and the
    first configured candidate otherwise. *)
Theorem reset_makes_all_usable (self : SourceRouter.t) (operation : string)
    (preferred : option string) :
  SourceRouter.get_source (SourceRouter.reset self) operation preferred
  = match preferred with
    | Some p =>
        if (negb (String.eqb p "")
            && bool_decide (p ∈ SourceRouter.available_sources self operation))%bool
        then Some p
        else head (SourceRouter.available_sources self operation)
    | None => head (SourceRouter.available_sources self operation)
    end.
Proof.
  assert (Hc : SourceRouter.candidates (SourceRouter.reset self) operation
               = SourceRouter.available_sources self operation).
  { unfold SourceRouter.candidates, SourceRouter.failed, SourceRouter.reset; simpl.
    rewrite lookup_empty; simpl.
    change (SourceRouter.available_sources (SourceRouter.mk (SourceRouter.sources self) ∅) operation)
      with (SourceRouter.available_sources self operation).
    induction (SourceRouter.available_sources self operation) as [|a l IH]; [reflexivity|].
    simpl. rewrite bool_decide_eq_true_2 by apply not_elem_of_empty. by rewrite IH. }
  unfold SourceRouter.get_source. by rewrite Hc.
Qed.

(** ** TTL cache: further properties *)

(** X6. [set] on one key leaves every other key alone: when the expiry is a
    [datetime], so that [set] stores, a lookup of another key answers as it
    did before the [set], and such a lookup, even one that evicts its own
    expired entry, does not disturb what [set] stored. *)
Theorem set_leaves_other_keys (self : DataCache.t) (now t : Q)
    (key key' : string) (value : pyval) :
  key' ≠ key →
  DataCache.storable (DataCache.ttl_seconds self) now →
  ∃ c,
    DataCache.set self now key value = Ret c ∧
    fst (DataCache.get c t key') = fst (DataCache.get self t key') ∧
    DataCache._cache (snd (DataCache.get c t key')) !! key
      = Some (value, (now + inject_Z (DataCache.ttl_seconds self))%Q).
Proof.
  intros Hne Hok. eexists. split; [by apply set_storable|].
  unfold DataCache.get; simpl.
  rewrite lookup_insert_ne by done.
  destruct (DataCache._cache self !! key') as [[v e]|]; simpl.
  - destruct (Qltb t e); simpl.
    + split; [reflexivity|apply lookup_insert_eq].
    + split; [reflexivity|]. rewrite lookup_delete_ne by done. apply lookup_insert_eq.
  - split; [reflexivity|apply lookup_insert_eq].
Qed.

(** X7. A cache whose [ttl_seconds] is zero or negative never hits: what
    [set] stores (the expiry being a [datetime]) has already expired at the
    time of the [set], so a lookup at that time or later misses. *)
Theorem nonpositive_ttl_never_hits (self : DataCache.t) (now t : Q)
    (key : string) (value : pyval) :
  (DataCache.ttl_seconds self <= 0)%Z →
  (now <= t)%Q →
  DataCache.storable (DataCache.ttl_seconds self) now →
  ∃ c,
    DataCache.set self now key value = Ret c ∧
    fst (DataCache.get c t key) = PyNone.
Proof.
  intros Httl Ht Hok. eexists. split; [by apply set_storable|].
  unfold DataCache.get; simpl.
  rewrite lookup_insert_eq.
  assert (Hq : (inject_Z (DataCache.ttl_seconds self) <= 0)%Q).
  { change 0%Q with (inject_Z 0). by rewrite <- Zle_Qle. }
  assert (Hexp : Qltb t (now + inject_Z (DataCache.ttl_seconds self)) = false)
    by (apply Qltb_false; lra).
  by rewrite Hexp.
Qed.

(** X8. A miss is sticky: once [get(key)] has returned [None], every later
    [get(key)] returns [None] too, whatever the clock reads then (even an
    earlier time), until the key is set again. *)
Theorem miss_is_sticky (self : DataCache.t) (t t' : Q) (key : string) :
  fst (DataCache.get self t key) = PyNone →
  fst (DataCache.get (snd (DataCache.get self t key)) t' key) = PyNone.
Proof.
  unfold DataCache.get.
  destruct (DataCache._cache self !! key) as [[v e]|] eqn:E; simpl.
  - destruct (Qltb t e); simpl.
    + intros ->. rewrite E. by destruct (Qltb t' e).
    + intros _. by rewrite lookup_delete_eq.
  - intros _. by rewrite E.
Qed.

(** X9. [get] only ever evicts: every entry of the cache after a lookup was
    there, with the same value and expiry, before it, and [ttl_seconds] is
    untouched. *)
Theorem get_only_evicts (self : DataCache.t) (t : Q) (key : string) :
  DataCache.ttl_seconds (snd (DataCache.get self t key)) = DataCache.ttl_seconds self ∧
  ∀ key' entry,
    DataCache._cache (snd (DataCache.get self t key)) !! key' = Some entry →
    DataCache._cache self !! key' = Some entry.
Proof.
  unfold DataCache.get.
  destruct (DataCache._cache self !! key) as [[v e]|] eqn:E; simpl.
  - destruct (Qltb t e); simpl; split; try reflexivity; try done.
    intros key' entry H. apply lookup_delete_Some in H as [_ H]. exact H.
  - by split.
Qed.


(** ** Error classification: further properties *)

Lemma lower_app (a b : string) : lower (a ++ b) = lower a ++ lower b.
Proof. induction a as [|c a IH]; simpl; [reflexivity|by rewrite IH]. Qed.

Lemma prefix_app (k s : string) : String.prefix k (k ++ s) = true.
Proof.
  induction k as [|c k IH]; simpl; [by destruct s|].
  destruct (ascii_dec c c); [exact IH|contradiction].
Qed.

Lemma contains_eq (k h : string) :
  contains k h = if String.prefix k h then true
                 else match h with
                      | EmptyString => false
                      | String _ rest => contains k rest
                      end.
Proof. by destruct h. Qed.

Lemma contains_of_prefix (k h : string) : String.prefix k h = true → contains k h = true.
Proof. intros H. by rewrite contains_eq, H. Qed.

Lemma contains_app (k pre post : string) : contains k (pre ++ k ++ post) = true.
Proof.
  induction pre as [|c pre IH].
  - change ("" ++ k ++ post) with (k ++ post). apply contains_of_prefix, prefix_app.
  - change (String c pre ++ k ++ post) with (String c (pre ++ k ++ post)).
    rewrite contains_eq, IH. by destruct (String.prefix k _).
Qed.

Lemma keywords_are_ascii (keyword : string) :
  In keyword RetryHandler.retryable_keywords → is_ascii keyword = true.
Proof.
  intros Hin. apply (proj1 (forallb_forall is_ascii RetryHandler.retryable_keywords));
    [reflexivity|exact Hin].
Qed.

Lemma retryable_of_piece {L : StrLower} (keyword : string) (cls : string)
    (is_Exception : bool) (before piece after : string) :
  In keyword RetryHandler.retryable_keywords →
  lower piece = keyword →
  RetryHandler.is_retryable_error (mkExn cls is_Exception (before ++ piece ++ after)) = true.
Proof.
  intros Hin Hpiece. unfold RetryHandler.is_retryable_error. simpl exn_str.
  apply existsb_exists. exists keyword. split; [exact Hin|].
  apply str_lower_finds; [by apply keywords_are_ascii|].
  rewrite !lower_app, Hpiece. apply contains_app.
Qed.

(** X17. Classification is by substring and blind to letter case: an error
    whose text contains, anywhere, a piece that lower-cases to one of the
    ten keywords is retryable, whatever its class and whatever surrounds the
    piece ([lower] folds the letters A-Z, as [str.lower] does). *)
Theorem keyword_anywhere_is_retryable {L : StrLower} (keyword : string) (cls : string)
    (is_Exception : bool) (before piece after : string) :
  In keyword RetryHandler.retryable_keywords →
  lower piece = keyword →
  RetryHandler.is_retryable_error (mkExn cls is_Exception (before ++ piece ++ after)) = true.
Proof. apply retryable_of_piece. Qed.

(** ** Decoding the answer: properties *)

Lemma string_app_assoc (a b c : string) : (a ++ b) ++ c = a ++ (b ++ c).
Proof.
  induction a as [|x a IH]; [reflexivity|].
  change ((String x a ++ b) ++ c) with (String x ((a ++ b) ++ c)).
  change (String x a ++ (b ++ c)) with (String x (a ++ (b ++ c))).
  by rewrite IH.
Qed.

Lemma list_item_or_empty_nth (l : list pyval) (i : nat) :
  list_item_or_empty l i = if (i <? length l)%nat then nth i l PyNone else PyStr "".
Proof.
  unfold list_item_or_empty. revert i. induction l as [|a l IH]; intros [|i]; simpl; try reflexivity.
  rewrite IH. reflexivity.
Qed.

(** X22. What [_fetch_tx] makes of the field list [qt]: an empty list is the
    [ValueError] that names the symbol; one to seven fields are an
    [IndexError]; with eight fields or more the result is the dict of eleven
    entries, the four optional ones (high, low, change, change percent)
    empty strings when the list is too short to hold them. *)
Theorem quote_from_qt_outcomes (symbol : string) (qt : list pyval) :
  (qt = [] → quote_from_qt symbol qt = Raise (no_data_error symbol)) ∧
  ((0 < length qt < 8)%nat → quote_from_qt symbol qt = Raise IndexError_list) ∧
  ((8 <= length qt)%nat →
   quote_from_qt symbol qt =
     Ret (PyDict
       [ ("股票代码", nth 2 qt PyNone);
         ("股票名称", nth 1 qt PyNone);
         ("最新价", nth 3 qt PyNone);
         ("昨收", nth 4 qt PyNone);
         ("今开", nth 5 qt PyNone);
         ("成交量", nth 6 qt PyNone);
         ("成交额", nth 7 qt PyNone);
         ("最高", if (22 <? length qt)%nat then nth 22 qt PyNone else PyStr "");
         ("最低", if (21 <? length qt)%nat then nth 21 qt PyNone else PyStr "");
         ("涨跌额", if (47 <? length qt)%nat then nth 47 qt PyNone else PyStr "");
         ("涨跌幅", if (46 <? length qt)%nat then nth 46 qt PyNone else PyStr "") ])).
Proof.
  split; [by intros ->|]. split.
  - intros [Hlo Hhi].
    destruct qt as [|a0 [|a1 [|a2 [|a3 [|a4 [|a5 [|a6 [|a7 rest]]]]]]]];
      simpl in Hlo, Hhi; try lia; reflexivity.
  - intros Hlen. rewrite <- !list_item_or_empty_nth.
    destruct qt as [|a0 [|a1 [|a2 [|a3 [|a4 [|a5 [|a6 [|a7 rest]]]]]]]];
      simpl in Hlen; try lia; reflexivity.
Qed.

(** X23. The "no data" error is retried for symbols that spell a keyword:
    its text quotes the symbol, so for a symbol that contains ["403"],
    ["429"] or any other retryable keyword (600403 is such a stock code) the
    [ValueError] [_fetch_tx] raises on an empty field list is classified
    retryable. *)
Theorem no_data_error_retryable_by_symbol {L : StrLower}
    (keyword before piece after : string) :
  In keyword RetryHandler.retryable_keywords →
  lower piece = keyword →
  quote_from_qt (before ++ piece ++ after) []
    = Raise (no_data_error (before ++ piece ++ after)) ∧
  exn_is_Exception (no_data_error (before ++ piece ++ after)) = true ∧
  RetryHandler.is_retryable_error (no_data_error (before ++ piece ++ after)) = true.
Proof.
  intros Hin Hpiece. split; [reflexivity|]. split; [reflexivity|].
  unfold no_data_error.
  replace ("无法获取 " ++ (before ++ piece ++ after) ++ " 的行情数据")
    with (("无法获取 " ++ before) ++ piece ++ (after ++ " 的行情数据"))
    by (by rewrite !string_app_assoc).
  by apply retryable_of_piece with keyword.
Qed.

Lemma day_row_fields (item : list pyval) :
  (6 <= length item)%nat → day_row item = Ret (row_fields (PyList item)).
Proof.
  intros Hlen.
  destruct item as [|a0 [|a1 [|a2 [|a3 [|a4 [|a5 rest]]]]]]; simpl in Hlen; try lia.
  reflexivity.
Qed.

Lemma day_row_short (item : list pyval) :
  (length item < 6)%nat → day_row item = Raise IndexError_list.
Proof.
  intros Hlen.
  destruct item as [|a0 [|a1 [|a2 [|a3 [|a4 [|a5 rest]]]]]]; simpl in Hlen; try lia;
    reflexivity.
Qed.

(** X24. On rows of the expected shape, [_fetch_tx_hist] returns, in their
    order, exactly the rows whose date (dashes removed) lies between [start]
    and [end] as strings, each as the dict of its first six fields; entries
    of [day_data] that are not lists are passed over. *)
Theorem filter_day_data_selects (start end_ : string) (day_data : list pyval) :
  Forall row_well_formed day_data →
  filter_day_data start end_ day_data
    = Ret (List.map row_fields (List.filter (row_in_range start end_) day_data)).
Proof.
  induction 1 as [|v rest Hv Hrest IH]; [reflexivity|].
  destruct v as [| | | |item|]; simpl; try exact IH.
  destruct Hv as [[date Hdate] Hlen].
  destruct item as [|first item']; [discriminate|].
  simpl in Hdate. inversion Hdate; subst first.
  unfold list_item. simpl.
  destruct (String.leb start (remove_dashes date) && String.leb (remove_dashes date) end_)%bool.
  - rewrite (day_row_fields _ Hlen), IH. reflexivity.
  - exact IH.
Qed.

Lemma ascii_compare_N (a b : ascii) :
  Ascii.compare a b = N.compare (N_of_ascii a) (N_of_ascii b).
Proof. reflexivity. Qed.

Lemma string_leb_trans (a b c : string) :
  String.leb a b = true → String.leb b c = true → String.leb a c = true.
Proof.
  unfold String.leb. revert b c.
  induction a as [|x a IH]; intros [|y b] [|z c]; simpl; try done.
  rewrite !ascii_compare_N.
  destruct (N.compare_spec (N_of_ascii x) (N_of_ascii y)) as [Hxy|Hxy|Hxy];
    destruct (N.compare_spec (N_of_ascii y) (N_of_ascii z)) as [Hyz|Hyz|Hyz];
    destruct (N.compare_spec (N_of_ascii x) (N_of_ascii z)) as [Hxz|Hxz|Hxz];
    try done; try lia.
  apply IH.
Qed.

(** X25. A reversed range gives an empty result, not an error: when [end]
    sorts before [start], [_fetch_tx_hist] returns the empty list for any
    rows that start with a date string, rows with too few fields included. *)
Theorem reversed_range_selects_nothing (start end_ : string) (day_data : list pyval) :
  String.leb start end_ = false →
  Forall (fun v => match v with
                   | PyList item => ∃ date, item !! 0%nat = Some (PyStr date)
                   | _ => True
                   end) day_data →
  filter_day_data start end_ day_data = Ret [].
Proof.
  intros Hrev. induction 1 as [|v rest Hv Hrest IH]; [reflexivity|].
  destruct v as [| | | |item|]; simpl; try exact IH.
  destruct Hv as [date Hdate].
  destruct item as [|first item']; [discriminate|].
  simpl in Hdate. inversion Hdate; subst first.
  unfold list_item. simpl.
  destruct (String.leb start (remove_dashes date)) eqn:E1; simpl; [|exact IH].
  destruct (String.leb (remove_dashes date) end_) eqn:E2; simpl; [|exact IH].
  rewrite (string_leb_trans _ _ _ E1 E2) in Hrev. discriminate.
Qed.

(** X26. One short row within the range loses the whole result: when a row
    whose date lies in the range has fewer than six fields,
    [_fetch_tx_hist] raises [IndexError], whatever well-formed rows came
    before it and whatever follows. *)
Theorem short_row_in_range_raises (start end_ : string)
    (before : list pyval) (item : list pyval) (after : list pyval) :
  Forall row_well_formed before →
  row_in_range start end_ (PyList item) = true →
  (length item < 6)%nat →
  filter_day_data start end_ (before ++ PyList item :: after) = Raise IndexError_list.
Proof.
  intros Hbefore Hin Hshort.
  assert (Hhere : filter_day_data start end_ (PyList item :: after) = Raise IndexError_list).
  { destruct item as [|first item']; [discriminate|].
    destruct first; try discriminate. simpl in Hin.
    simpl. unfold list_item. simpl. rewrite Hin.
    by rewrite (day_row_short _ Hshort). }
  induction Hbefore as [|v rest Hv Hrest IH]; [exact Hhere|].
  destruct v as [| | | |row|]; simpl; try exact IH.
  destruct Hv as [[date Hdate] Hlen].
  destruct row as [|first row']; [discriminate|].
  simpl in Hdate. inversion Hdate; subst first.
  unfold list_item. simpl.
  destruct (String.leb start (remove_dashes date) && String.leb (remove_dashes date) end_)%bool.
  - rewrite (day_row_fields _ Hlen), IH. reflexivity.
  - exact IH.
Qed.

(** ** Running a computation *)

Section Runs.

Context {U : Type} {L : StrLower}.
Implicit Types (w : World U) (j : list event).

Lemma bind_Ret {A B} (m : M A) (k : A → M B) w a w1 j1 :
  m w = (Ret a, w1, j1) →
  bind m k w = (let '(r, w2, j2) := k a w1 in (r, w2, (j1 ++ j2)%list)).
Proof. intros H. unfold bind. by rewrite H. Qed.

Lemma bind_Raise {A B} (m : M A) (k : A → M B) w e w1 j1 :
  m w = (Raise e, w1, j1) → bind m k w = (Raise e, w1, j1).
Proof. intros H. unfold bind. by rewrite H. Qed.

Lemma calls_app j1 j2 : calls (j1 ++ j2) = (calls j1 + calls j2)%nat.
Proof. unfold calls. by rewrite List.filter_app, length_app. Qed.

Lemma sleeps_app j1 j2 : sleeps (j1 ++ j2) = (sleeps j1 + sleeps j2)%nat.
Proof. unfold sleeps. by rewrite List.filter_app, length_app. Qed.

(** *** Randomness *)

Lemma random_random_unit w :
  ∃ r, random_random w = (Ret r, with_entropy w (tl (entropy w)), [])
       ∧ (0 <= r)%Q ∧ (r < 1)%Q.
Proof.
  unfold random_random. eexists. split; [reflexivity|].
  pose proof (Z.mod_pos_bound (hd 0 (entropy w)) (Z.pos two53) eq_refl) as [Hlo Hhi].
  unfold Qle, Qlt; simpl. lia.
Qed.

Lemma random_uniform_between (a b : Q) w :
  ∃ r, random_uniform a b w
         = (Ret (a + (b - a) * r)%Q, with_entropy w (tl (entropy w)), [])
       ∧ (0 <= r)%Q ∧ (r < 1)%Q.
Proof.
  destruct (random_random_unit w) as (r & Hr & Hlo & Hhi).
  exists r. split; [|by split].
  unfold random_uniform. rewrite (bind_Ret _ _ _ _ _ _ Hr). reflexivity.
Qed.

(** *** Backoff delay *)

(** What [calculate_delay] computes, below the attempt at which the power
    of two no longer converts to a float. *)
Lemma calculate_delay_run (self : RetryHandler.t) (attempt_no : Z) w :
  (attempt_no < 1024)%Z →
  ∃ delay jitter w',
    calculate_delay self attempt_no w = (Ret delay, w', []) ∧
    (delay == Qmin (RetryHandler.base_delay self * 2 ^ attempt_no)
                   (RetryHandler.max_delay self) + jitter)%Q ∧
    (if RetryHandler.enable_random self
     then (1 <= jitter)%Q ∧ (jitter <= 3)%Q
     else (jitter == 0)%Q ∧ (delay <= RetryHandler.max_delay self)%Q) ∧
    (delay <= RetryHandler.max_delay self + 3)%Q ∧
    same_objects w w'.
Proof.
  intros Hlt. unfold calculate_delay.
  assert ((1024 <=? attempt_no)%Z = false) as -> by lia.
  set (capped := Qmin _ _).
  assert (Hcap : (capped <= RetryHandler.max_delay self)%Q) by apply Q.le_min_r.
  destruct (RetryHandler.enable_random self).
  - destruct (random_uniform_between 1 3 w) as (r & Hr & Hlo & Hhi).
    exists (capped + (1 + (3 - 1) * r))%Q, (1 + (3 - 1) * r)%Q, (with_entropy w (tl (entropy w))).
    rewrite (bind_Ret _ _ _ _ _ _ Hr). simpl.
    split; [reflexivity|]. split; [reflexivity|]. split; [split; lra|].
    split; [lra|by repeat split].
  - exists capped, 0%Q, w. split; [reflexivity|].
    split; [lra|]. split; [split; [reflexivity|exact Hcap]|].
    split; [lra|by repeat split].
Qed.

Lemma calculate_delay_nonneg (self : RetryHandler.t) (attempt_no : Z) w :
  (attempt_no < 1024)%Z →
  (0 <= RetryHandler.base_delay self)%Q →
  (0 <= RetryHandler.max_delay self)%Q →
  ∃ delay w', calculate_delay self attempt_no w = (Ret delay, w', []) ∧
              (0 <= delay)%Q ∧ (delay <= RetryHandler.max_delay self + 3)%Q.
Proof.
  intros Hlt Hb Hm.
  destruct (calculate_delay_run self attempt_no w Hlt)
    as (delay & jitter & w' & Hrun & Heq & Hj & Hmax & _).
  exists delay, w'. split; [exact Hrun|]. split; [|exact Hmax].
  assert (Hpow : (0 <= 2 ^ attempt_no)%Q) by (apply Qpower_0_le; lra).
  assert (Hprod : (0 <= RetryHandler.base_delay self * 2 ^ attempt_no)%Q)
    by (apply Qmult_le_0_compat; assumption).
  assert (Hcap : (0 <= Qmin (RetryHandler.base_delay self * 2 ^ attempt_no)
                            (RetryHandler.max_delay self))%Q)
    by (apply Q.min_glb; assumption).
  destruct (RetryHandler.enable_random self); destruct Hj as [H1 H2]; lra.
Qed.


(** *** Pacing *)

Lemma time_time_run w :
  time_time w = (Ret (clock w + hd 0 (lags w))%Q,
                 with_clock w (clock w + hd 0 (lags w))%Q (tl (lags w)), []).
Proof. reflexivity. Qed.

Lemma sleep_run (d : Q) w :
  (0 <= d)%Q →
  sleep d w = (Ret tt, with_clock w (clock w + d)%Q (lags w), [EvSleep d]).
Proof.
  intros Hd. unfold sleep. apply Qltb_false in Hd. by rewrite Hd.
Qed.







(** *** Retries *)

Lemma range_snoc (n : Z) : (0 <= n)%Z → range (n + 1) = (range n ++ [n])%list.
Proof.
  intros Hn. unfold range.
  replace (Z.to_nat (n + 1)) with (S (Z.to_nat n)) by lia.
  rewrite seq_S, List.map_app. simpl. by rewrite Z2Nat.id.
Qed.

Lemma range_length (n : Z) : length (range n) = Z.to_nat n.
Proof. unfold range. by rewrite length_map, length_seq. Qed.

Lemma range_below (n : Z) : Forall (fun a => (a < n)%Z) (range n).
Proof.
  unfold range. apply Forall_forall. intros a Ha.
  apply list_elem_of_In, in_map_iff in Ha as (k & <- & Hk).
  apply in_seq in Hk. lia.
Qed.

Lemma backoff_run (self : RetryHandler.t) (attempt_no : Z) w :
  (attempt_no < 1024)%Z →
  (0 <= RetryHandler.base_delay self)%Q →
  (0 <= RetryHandler.max_delay self)%Q →
  ∃ w' j, backoff self attempt_no w = (Ret tt, w', j) ∧
          calls j = 0%nat ∧
          sleeps j = (if (attempt_no <? RetryHandler.max_retries self)%Z then 1 else 0)%nat ∧
          sleeps_within 0 (RetryHandler.max_delay self + 3) j.
Proof.
  intros Hcap Hb Hm. unfold backoff.
  destruct (attempt_no <? RetryHandler.max_retries self)%Z eqn:Hlt.
  - destruct (calculate_delay_nonneg self attempt_no w Hcap Hb Hm)
      as (delay & w1 & Hrun & Hpos & Hmax).
    rewrite (bind_Ret _ _ _ _ _ _ Hrun), (sleep_run _ _ Hpos).
    eexists _, _. split; [reflexivity|]. split; [reflexivity|]. split; [reflexivity|].
    intros d [Hd|[]]. by inversion Hd; subst.
  - exists w, []. split; [reflexivity|]. split; [reflexivity|]. split; [reflexivity|].
    intros d [].
Qed.

Lemma sleeps_within_app (lo hi : Q) j1 j2 :
  sleeps_within lo hi j1 → sleeps_within lo hi j2 → sleeps_within lo hi (j1 ++ j2).
Proof.
  intros H1 H2 d Hd. apply in_app_or in Hd as [Hd|Hd]; [by apply H1|by apply H2].
Qed.

Lemma sleeps_within_call (lo hi : Q) : sleeps_within lo hi [EvCall].
Proof. intros d [Hd|[]]. discriminate Hd. Qed.

Lemma sleeps_within_weaken (lo hi hi' : Q) j :
  (hi <= hi')%Q → sleeps_within lo hi j → sleeps_within lo hi' j.
Proof. intros Hle H d Hd. destruct (H d Hd). split; lra. Qed.

(** One turn of the loop on a failure that is caught and found retryable. *)
Lemma execute_loop_retry {A} (self : RetryHandler.t) (func : thunk A)
    (attempt_no : Z) (rest : list Z) (last_error : option exn) w e w1 :
  func w = (Raise e, w1) →
  exn_is_Exception e = true →
  RetryHandler.is_retryable_error e = true →
  execute_loop self func (attempt_no :: rest) last_error w =
    (let '(r, w2, j2) :=
       (backoff self attempt_no ;; execute_loop self func rest (Some e)) w1 in
     (r, w2, EvCall :: j2)).
Proof.
  intros Hf Hex Hre. simpl. unfold bind at 1, attempt, invoke.
  rewrite Hf, Hex, Hre. reflexivity.
Qed.

(** One turn of the loop on a failure that is not retried. *)
Lemma execute_loop_reraise {A} (self : RetryHandler.t) (func : thunk A)
    (attempt_no : Z) (rest : list Z) (last_error : option exn) w e w1 :
  func w = (Raise e, w1) →
  exn_is_Exception e = false ∨ RetryHandler.is_retryable_error e = false →
  execute_loop self func (attempt_no :: rest) last_error w = (Raise e, w1, [EvCall]).
Proof.
  intros Hf Hno. simpl. unfold bind, attempt, invoke. rewrite Hf.
  destruct (exn_is_Exception e); [|reflexivity].
  destruct Hno as [Hno|Hno]; [discriminate|]. by rewrite Hno.
Qed.

Lemma execute_loop_exhausts {A} (self : RetryHandler.t) (func : thunk A) :
  (RetryHandler.max_retries self <= 1024)%Z →
  (0 <= RetryHandler.base_delay self)%Q →
  (0 <= RetryHandler.max_delay self)%Q →
  fails_retryably func →
  ∀ (l : list Z) (final : Z) (last_error : option exn) w,
    Forall (fun a => (a < RetryHandler.max_retries self)%Z) l →
    (RetryHandler.max_retries self <= final)%Z →
    ∃ e w_pre w' j,
      execute_loop self func (l ++ [final]) last_error w = (Raise e, w', (j ++ [EvCall])%list) ∧
      func w_pre = (Raise e, w') ∧
      calls j = length l ∧
      sleeps j = length l ∧
      sleeps_within 0 (RetryHandler.max_delay self + 3) j.
Proof.
  intros Hcap Hb Hm Hfail l final.
  induction l as [|a l IH]; intros last_error w Hl Hfinal.
  - destruct (Hfail w) as (e & w1 & Hf & Hex & Hre).
    exists e, w, w1, [].
    split; [|split; [exact Hf|split; [reflexivity|split; [reflexivity|by intros d []]]]].
    simpl app. rewrite (execute_loop_retry _ _ _ _ _ _ _ _ Hf Hex Hre).
    unfold backoff.
    assert ((final <? RetryHandler.max_retries self)%Z = false) as -> by lia.
    reflexivity.
  - inversion Hl as [|? ? Ha Hl']; subst.
    destruct (Hfail w) as (e1 & w1 & Hf & Hex & Hre).
    destruct (backoff_run self a w1 ltac:(lia) Hb Hm)
      as (w2 & jb & Hback & Hcb & Hsb & Hwb).
    assert ((a <? RetryHandler.max_retries self)%Z = true) as Hlt by lia.
    rewrite Hlt in Hsb.
    destruct (IH (Some e1) w2 Hl' Hfinal)
      as (e & w_pre & w' & j & Hrun & Hlast & Hc & Hs & Hw).
    exists e, w_pre, w', (EvCall :: jb ++ j)%list.
    split; [|split; [exact Hlast|split; [|split]]]; cycle 3.
    { apply (sleeps_within_app _ _ [EvCall] (jb ++ j));
        [apply sleeps_within_call|by apply sleeps_within_app]. }
    + change ((a :: l) ++ [final])%list with (a :: (l ++ [final]))%list.
      rewrite (execute_loop_retry _ _ _ _ _ _ _ _ Hf Hex Hre).
      rewrite (bind_Ret _ _ _ _ _ _ Hback), Hrun. simpl.
      by rewrite <- app_assoc.
    + change (EvCall :: jb ++ j)%list with ([EvCall] ++ (jb ++ j))%list.
      rewrite !calls_app, Hcb, Hc. reflexivity.
    + change (EvCall :: jb ++ j)%list with ([EvCall] ++ (jb ++ j))%list.
      rewrite !sleeps_app, Hsb, Hs. reflexivity.
Qed.

(** C5, as the code has it.  With [max_retries = n], [0 <= n <= 1024], and
    delays that [time.sleep] takes ([base_delay] and [max_delay] not
    negative, [max_delay + 3] within [sleep_max]), a thunk that raises a
    retryable error at every invocation is invoked exactly [n + 1] times,
    with [n] backoff sleeps in between, each of at most [max_delay + 3]
    seconds and so within what [time.sleep] takes; [execute] then raises, and what it raises is the error of the
    last invocation, which is also the last thing that happened.  For
    [n = 0] that is one invocation and no sleep.  (A negative delay makes
    the first backoff raise [ValueError], and past attempt 1023 the delay
    itself raises [OverflowError]: in both cases [execute] ends early, with
    that error.) *)
Theorem execute_exhausts_retries {A} (self : RetryHandler.t) (func : thunk A) w :
  (0 <= RetryHandler.max_retries self <= 1024)%Z →
  (0 <= RetryHandler.base_delay self)%Q →
  (0 <= RetryHandler.max_delay self)%Q →
  (RetryHandler.max_delay self + 3 <= sleep_max)%Q →
  fails_retryably func →
  ∃ e w_pre w' j,
    execute self func w = (Raise e, w', (j ++ [EvCall])%list) ∧
    func w_pre = (Raise e, w') ∧
    calls (j ++ [EvCall]) = Z.to_nat (RetryHandler.max_retries self + 1) ∧
    sleeps (j ++ [EvCall]) = Z.to_nat (RetryHandler.max_retries self) ∧
    sleeps_within 0 (RetryHandler.max_delay self + 3) j ∧
    sleeps_within 0 sleep_max j ∧
    (RetryHandler.max_retries self = 0%Z → j = []).
Proof.
  intros [Hn Hcap] Hb Hm Hsleep Hfail. unfold execute. rewrite (range_snoc _ Hn).
  destruct (execute_loop_exhausts self func Hcap Hb Hm Hfail
              (range (RetryHandler.max_retries self)) (RetryHandler.max_retries self)
              None w (range_below _) (Z.le_refl _))
    as (e & w_pre & w' & j & Hrun & Hlast & Hc & Hs & Hw).
  rewrite range_length in Hc, Hs.
  exists e, w_pre, w', j. split; [exact Hrun|]. split; [exact Hlast|].
  rewrite calls_app, sleeps_app, Hc, Hs.
  change (calls [EvCall]) with 1%nat. change (sleeps [EvCall]) with 0%nat.
  split; [lia|]. split; [lia|]. split; [exact Hw|].
  split; [by apply sleeps_within_weaken with (RetryHandler.max_delay self + 3)%Q|].
  intros H0. rewrite H0 in Hc. simpl in Hc.
  destruct j as [|ev j]; [reflexivity|].
  rewrite H0 in Hs. simpl in Hs.
  unfold calls, sleeps in Hc, Hs. simpl in Hc, Hs.
  destruct ev; simpl in Hc, Hs; discriminate.
Qed.

Lemma not_retryable_iff (e : exn) :
  RetryHandler.is_retryable_error e = false ↔
  ∀ keyword, In keyword RetryHandler.retryable_keywords →
             contains keyword (str_lower (exn_str e)) = false.
Proof.
  unfold RetryHandler.is_retryable_error. split.
  - intros H keyword Hin.
    destruct (contains keyword (str_lower (exn_str e))) eqn:E; [|reflexivity].
    assert (existsb (fun keyword => contains keyword (str_lower (exn_str e)))
                    RetryHandler.retryable_keywords = true)
      by (apply existsb_exists; eauto).
    congruence.
  - intros H.
    destruct (existsb _ _) eqn:E; [|reflexivity].
    apply existsb_exists in E as (keyword & Hin & Hc). rewrite (H _ Hin) in Hc. discriminate.
Qed.

(** C6. When the first invocation of the thunk raises an error whose text,
    lower-cased by [str.lower], contains none of the transient keywords,
    [execute] (with [max_retries >= 0]) raises that very error with the
    world as the thunk left it, and all that happened is that one
    invocation: no second call and no sleep. *)
Theorem execute_non_retryable_once {A} (self : RetryHandler.t) (func : thunk A)
    w e w1 :
  (0 <= RetryHandler.max_retries self)%Z →
  func w = (Raise e, w1) →
  (∀ keyword, In keyword RetryHandler.retryable_keywords →
              contains keyword (str_lower (exn_str e)) = false) →
  execute self func w = (Raise e, w1, [EvCall]) ∧
  calls [EvCall] = 1%nat ∧ sleeps [EvCall] = 0%nat.
Proof.
  intros Hn Hf Hkw. split; [|by split].
  unfold execute, range.
  replace (Z.to_nat (RetryHandler.max_retries self + 1))
    with (S (Z.to_nat (RetryHandler.max_retries self))) by lia.
  simpl seq. simpl List.map.
  apply execute_loop_reraise; [exact Hf|]. right. by apply not_retryable_iff.
Qed.

(** *** Governed requests *)

Lemma wait_returns (self : RateLimiter.t) w :
  ∃ self' w' j, wait self w = (Ret self', w', j) ∧ calls j = 0%nat ∧
                _retry_handler w' = _retry_handler w.
Proof.
  unfold wait, init_headers, rotate_ua.
  unfold bind at 1 2 3; simpl.
  set (elapsed := (clock w + hd 0 (lags w) - RateLimiter._last_request_time self)%Q).
  destruct (Qltb elapsed (RateLimiter.min_interval self)); [|by eexists _, _, _].
  destruct (RateLimiter.enable_random self).
  - destruct (random_uniform_between (RateLimiter.min_interval self)
                (RateLimiter.max_interval self)
                (with_clock w (clock w + hd 0 (lags w))%Q (tl (lags w))))
      as (r & Hr & _).
    unfold bind at 1. unfold bind at 1. rewrite Hr.
    destruct (Qltb 0 _) eqn:Esl; [|by eexists _, _, _].
    apply Qltb_true in Esl. rewrite sleep_run by lra. by eexists _, _, _.
  - unfold bind at 1. unfold bind at 1. unfold ret at 1.
    destruct (Qltb 0 _) eqn:Esl; [|by eexists _, _, _].
    apply Qltb_true in Esl. rewrite sleep_run by lra. by eexists _, _, _.
Qed.

Lemma get_rate_limiter_returns w :
  ∃ limiter w', get_rate_limiter w = (Ret limiter, w', []) ∧
                _retry_handler w' = _retry_handler w.
Proof.
  unfold get_rate_limiter. destruct (_rate_limiter w); by eexists _, _.
Qed.

Lemma limiter_wait_returns w :
  ∃ w' j, limiter_wait w = (Ret tt, w', j) ∧ calls j = 0%nat ∧
          _retry_handler w' = _retry_handler w.
Proof.
  unfold limiter_wait.
  destruct (get_rate_limiter_returns w) as (limiter & w0 & Hget & Hh0).
  destruct (wait_returns limiter w0) as (self' & w1 & j & Hrun & Hc & Hh).
  rewrite (bind_Ret _ _ _ _ _ _ Hget), (bind_Ret _ _ _ _ _ _ Hrun).
  unfold store_rate_limiter. simpl.
  eexists _, _. split; [reflexivity|]. simpl. rewrite app_nil_r. split; congruence.
Qed.

Lemma get_retry_handler_returns w :
  handler_attempts w →
  ∃ handler w', get_retry_handler w = (Ret handler, w', []) ∧
                (0 <= RetryHandler.max_retries handler)%Z.
Proof.
  intros Hok. unfold get_retry_handler.
  destruct (_retry_handler w) as [handler|] eqn:E.
  - exists handler, w. split; [reflexivity|]. by apply Hok.
  - eexists _, _. split; [reflexivity|]. simpl. lia.
Qed.

Lemma execute_invokes {A} (self : RetryHandler.t) (func : thunk A) w :
  (0 <= RetryHandler.max_retries self)%Z →
  ∃ r w' j, execute self func w = (r, w', j) ∧ (1 <= calls j)%nat.
Proof.
  intros Hn. unfold execute, range.
  replace (Z.to_nat (RetryHandler.max_retries self + 1))
    with (S (Z.to_nat (RetryHandler.max_retries self))) by lia.
  simpl seq. simpl List.map. simpl execute_loop.
  unfold bind at 1, attempt, invoke.
  destruct (func w) as [r w1].
  match goal with |- context [let (_, _) := ?m w1 in _] =>
    destruct (m w1) as [[r2 w2] j2] end.
  exists r2, w2, ([EvCall] ++ j2)%list. split; [reflexivity|].
  rewrite calls_app. change (calls [EvCall]) with 1%nat. lia.
Qed.

Lemma governed_fetch_invokes {A} (func : thunk A) w :
  handler_attempts w →
  ∃ r w' j, governed_fetch func w = (r, w', j) ∧ (1 <= calls j)%nat.
Proof.
  intros Hok. unfold governed_fetch.
  destruct (limiter_wait_returns w) as (w1 & j1 & Hwait & _ & Hh).
  assert (Hok1 : handler_attempts w1) by (intros h Hw1; apply Hok; congruence).
  destruct (get_retry_handler_returns w1 Hok1) as (handler & w2 & Hget & Hn).
  destruct (execute_invokes handler func w2 Hn) as (r & w3 & j3 & Hrun & Hcalls).
  rewrite (bind_Ret _ _ _ _ _ _ Hwait), (bind_Ret _ _ _ _ _ _ Hget), Hrun.
  eexists _, _, _. split; [reflexivity|].
  rewrite !calls_app. lia.
Qed.

Ltac run_fetch_path :=
  unfold governed_fetch, bind, attempt;
  repeat match goal with
    | |- context [limiter_wait ?w] => destruct (limiter_wait w) as [[[[]|?] ?] ?]
    | |- context [get_retry_handler ?w] => destruct (get_retry_handler w) as [[[?|?] ?] ?]
    | |- context [execute ?h ?f ?w] => destruct (execute h f w) as [[[?|?] ?] ?]
    | |- context [cache_store ?t ?k ?v ?w] => destruct (cache_store t k v w) as [[[[]|?] ?] ?]
    end;
  simpl; rewrite ?app_nil_r, <- ?app_assoc; try reflexivity.

(** [get_spot] past the cache is the governed fetch, then the cache write;
    when the governed fetch raises, nothing else happens. *)
Lemma get_spot_fetch_unfold (_fetch_tx : string → thunk pyval)
    (symbol source : string) (use_cache : bool) w :
  get_spot_fetch _fetch_tx symbol source use_cache w =
    match governed_fetch (_fetch_tx symbol) w with
    | (Raise e, w1, j1) => (Raise e, w1, j1)
    | (Ret result, w1, j1) =>
        let output := PyDict [ ("symbol", PyStr symbol); ("source", PyStr "tx");
                               ("quote", result) ] in
        let '(r, w2, j2) :=
          ((if use_cache then cache_store 30 (spot_cache_key symbol source) output
            else ret tt) ;; ret output) w1 in
        (r, w2, (j1 ++ j2)%list)
    end.
Proof.
  unfold get_spot_fetch. destruct use_cache; run_fetch_path.
Qed.

Lemma get_hist_fetch_unfold
    (_fetch_tx_hist : string → string → string → string → string → thunk pyval)
    (symbol start end_ period adjust source : string) (use_cache : bool) w :
  get_hist_fetch _fetch_tx_hist symbol start end_ period adjust source use_cache w =
    match governed_fetch (_fetch_tx_hist symbol start end_ period adjust) w with
    | (Raise e, w1, j1) => (Raise e, w1, j1)
    | (Ret result, w1, j1) =>
        let output := PyDict [ ("symbol", PyStr symbol); ("start", PyStr start);
                               ("end", PyStr end_); ("period", PyStr period);
                               ("adjust", PyStr adjust); ("source", PyStr "tx");
                               ("data", result) ] in
        let '(r, w2, j2) :=
          ((if use_cache
            then cache_store 3600 (hist_cache_key symbol start end_ period adjust) output
            else ret tt) ;; ret output) w1 in
        (r, w2, (j1 ++ j2)%list)
    end.
Proof.
  unfold get_hist_fetch. destruct use_cache; run_fetch_path.
Qed.

(** C1, as the code has it.  [get_spot] and [get_hist] have no failover:
    their [except] clause re-raises.  Whenever the paced, retry-wrapped fetch
    raises (retries exhausted or not), the request raises the same error, the
    world is exactly as that fetch left it (so no source was marked failed)
    and nothing is journalled after it (so the sequence was not run again). *)
Theorem requests_reraise_without_failover
    (_fetch_tx : string → thunk pyval)
    (_fetch_tx_hist : string → string → string → string → string → thunk pyval)
    (symbol source start end_ period adjust : string) (use_cache : bool) :
  (∀ w0 cached w j0 e w' j,
     cache_lookup use_cache (spot_cache_key symbol source) w0 = (Ret cached, w, j0) →
     truthy cached = false →
     governed_fetch (_fetch_tx symbol) w = (Raise e, w', j) →
     get_spot _fetch_tx symbol source use_cache w0 = (Raise e, w', (j0 ++ j)%list)) ∧
  (∀ w0 cached w j0 e w' j,
     cache_lookup use_cache (hist_cache_key symbol start end_ period adjust) w0
       = (Ret cached, w, j0) →
     truthy cached = false →
     governed_fetch (_fetch_tx_hist symbol start end_ period adjust) w = (Raise e, w', j) →
     get_hist _fetch_tx_hist symbol start end_ period adjust source use_cache w0
       = (Raise e, w', (j0 ++ j)%list)).
Proof.
  split; intros w0 cached w j0 e w' j Hlook Hfalsy Hfetch.
  - unfold get_spot. unfold cache_lookup in Hlook. destruct use_cache.
    + rewrite (bind_Ret _ _ _ _ _ _ Hlook), Hfalsy.
      by rewrite get_spot_fetch_unfold, Hfetch.
    + inversion Hlook; subst. by rewrite get_spot_fetch_unfold, Hfetch.
  - unfold get_hist. unfold cache_lookup in Hlook. destruct use_cache.
    + rewrite (bind_Ret _ _ _ _ _ _ Hlook), Hfalsy.
      by rewrite get_hist_fetch_unfold, Hfetch.
    + inversion Hlook; subst. by rewrite get_hist_fetch_unfold, Hfetch.
Qed.


Ltac fetch_was_invoked Hrun Hok :=
  match type of Hrun with
  | context [governed_fetch ?f ?w] =>
      let Hg := fresh "Hg" in let Hcalls := fresh "Hcalls" in
      destruct (governed_fetch_invokes f w Hok) as (? & ? & ? & Hg & Hcalls);
      rewrite Hg in Hrun; cbv iota beta zeta in Hrun;
      repeat match type of Hrun with
        | context [match ?r with Ret _ => _ | Raise _ => _ end] => destruct r
        | context [let (_, _) := ?m in _] => destruct m as [[? ?] ?]
        end;
      inversion Hrun; subst; rewrite ?calls_app; lia
  end.


(** *** Retries: further properties *)

Lemma same_objects_refl w : same_objects w w.
Proof. by repeat split. Qed.

Lemma same_objects_trans w1 w2 w3 :
  same_objects w1 w2 → same_objects w2 w3 → same_objects w1 w3.
Proof.
  intros (H1 & H2 & H3 & H4 & H5) (G1 & G2 & G3 & G4 & G5).
  repeat split; congruence.
Qed.

(** The sleep between attempts, whatever the policy: it invokes nothing,
    sleeps at most once, and touches only the clock and the entropy. *)
Lemma backoff_outcome (self : RetryHandler.t) (attempt_no : Z) w :
  ∃ r w' j, backoff self attempt_no w = (r, w', j) ∧
            calls j = 0%nat ∧
            (sleeps j <= if (attempt_no <? RetryHandler.max_retries self)%Z then 1 else 0)%nat ∧
            same_objects w w'.
Proof.
  unfold backoff.
  destruct (attempt_no <? RetryHandler.max_retries self)%Z.
  - destruct (Z.lt_ge_cases attempt_no 1024) as [Hlt|Hge]; cycle 1.
    { exists (Raise OverflowError_int_to_float), w, [].
      unfold calculate_delay, bind, raise.
      assert ((1024 <=? attempt_no)%Z = true) as -> by lia.
      split; [reflexivity|]. split; [reflexivity|].
      split; [unfold sleeps; simpl; lia|apply same_objects_refl]. }
    destruct (calculate_delay_run self attempt_no w Hlt)
      as (delay & jitter & w1 & Hrun & _ & _ & _ & Hw1).
    rewrite (bind_Ret _ _ _ _ _ _ Hrun). unfold sleep.
    destruct (Qltb delay 0); simpl.
    + exists (Raise ValueError_sleep), w1, []. split; [reflexivity|]. split; [reflexivity|].
      split; [unfold calls, sleeps; simpl; lia|exact Hw1].
    + eexists _, _, _. split; [reflexivity|]. split; [reflexivity|]. split; [unfold calls, sleeps; simpl; lia|].
      destruct Hw1 as (H1 & H2 & H3 & H4 & H5). by repeat split.
  - exists (Ret tt), w, []. split; [reflexivity|]. split; [reflexivity|].
    split; [unfold calls, sleeps; simpl; lia|apply same_objects_refl].
Qed.

Lemma execute_loop_bounded {A} (self : RetryHandler.t) (func : thunk A) :
  ∀ (attempts : list Z) (last_error : option exn) w,
  ∃ r w' j,
    execute_loop self func attempts last_error w = (r, w', j) ∧
    (calls j <= length attempts)%nat ∧
    (sleeps j <= length (List.filter (fun a => (a <? RetryHandler.max_retries self)%Z)
                                     attempts))%nat ∧
    (sleeps j <= calls j)%nat.
Proof.
  induction attempts as [|a rest IH]; intros last_error w.
  - simpl. destruct last_error; eexists _, _, _; (split; [reflexivity|]); unfold calls, sleeps; simpl; lia.
  - simpl execute_loop.
    change (if (a <? RetryHandler.max_retries self)%Z
            then bind (calculate_delay self a) (λ delay, sleep delay)
            else ret tt) with (backoff (U:=U) self a).
    unfold bind at 1, attempt, invoke.
    destruct (func w) as [[v|e] w1].
    + eexists _, _, _. split; [reflexivity|]. unfold calls, sleeps; simpl; lia.
    + destruct (exn_is_Exception e);
        [|eexists _, _, _; split; [reflexivity|]; unfold calls, sleeps; simpl; lia].
      destruct (RetryHandler.is_retryable_error e); cbn [negb];
        [|eexists _, _, _; split; [reflexivity|]; unfold calls, sleeps; simpl; lia].
      destruct (backoff_outcome self a w1) as (rb & w2 & jb & Hb & Hcb & Hsb & _).
      destruct rb as [[]|eb].
      * destruct (IH (Some e) w2) as (r & w3 & j & Hrun & Hc & Hs & Hsc).
        rewrite (bind_Ret _ _ _ _ _ _ Hb), Hrun.
        eexists _, _, _. split; [reflexivity|].
        rewrite !calls_app, !sleeps_app, Hcb.
        change (calls [EvCall]) with 1%nat. change (sleeps [EvCall]) with 0%nat.
        simpl length. destruct (a <? RetryHandler.max_retries self)%Z; simpl length; lia.
      * rewrite (bind_Raise _ _ _ _ _ _ Hb).
        eexists _, _, _. split; [reflexivity|].
        rewrite !calls_app, !sleeps_app, Hcb.
        change (calls [EvCall]) with 1%nat. change (sleeps [EvCall]) with 0%nat.
        simpl length. destruct (a <? RetryHandler.max_retries self)%Z; simpl length; lia.
Qed.

Lemma range_retries (n : Z) :
  length (List.filter (fun a => (a <? n)%Z) (range (n + 1))) = Z.to_nat n.
Proof.
  destruct (Z.le_gt_cases 0 n) as [Hn|Hn].
  - rewrite (range_snoc _ Hn), List.filter_app, length_app. simpl.
    assert ((n <? n)%Z = false) as -> by lia. simpl.
    rewrite Nat.add_0_r, <- (range_length n). f_equal.
    apply forallb_filter_id. apply forallb_forall. intros a Ha.
    pose proof (range_below n) as Hall. rewrite Forall_forall in Hall.
    apply list_elem_of_In, Hall in Ha. lia.
  - unfold range. replace (Z.to_nat (n + 1)) with 0%nat by lia. simpl. lia.
Qed.

(** X11. Whatever the thunk does, [execute] invokes it at most
    [max_retries + 1] times and sleeps at most [max_retries] times, never
    more often than it has invoked the thunk. *)
Theorem execute_attempts_bounded {A} (self : RetryHandler.t) (func : thunk A) w :
  ∃ r w' j,
    execute self func w = (r, w', j) ∧
    (calls j <= Z.to_nat (RetryHandler.max_retries self + 1))%nat ∧
    (sleeps j <= Z.to_nat (RetryHandler.max_retries self))%nat ∧
    (sleeps j <= calls j)%nat.
Proof.
  unfold execute.
  destruct (execute_loop_bounded self func (range (RetryHandler.max_retries self + 1)) None w)
    as (r & w' & j & Hrun & Hc & Hs & Hsc).
  exists r, w', j. rewrite range_length in Hc. rewrite range_retries in Hs. by repeat split.
Qed.

Lemma range_first (n : Z) :
  (0 <= n)%Z → range (n + 1) = 0%Z :: List.map Z.of_nat (seq 1 (Z.to_nat n)).
Proof.
  intros Hn. unfold range.
  by replace (Z.to_nat (n + 1)) with (S (Z.to_nat n)) by lia.
Qed.

Lemma range_split (n : Z) (k : nat) :
  (Z.of_nat k <= n)%Z →
  ∃ rest, range (n + 1) = (range (Z.of_nat k) ++ Z.of_nat k :: rest)%list.
Proof.
  intros Hk. unfold range.
  replace (Z.to_nat (n + 1)) with (k + S (Z.to_nat n - k))%nat by lia.
  rewrite Nat2Z.id, seq_app, List.map_app. simpl. eauto.
Qed.

Lemma backoff_keeps_objects (self : RetryHandler.t) (attempt_no : Z) w :
  (attempt_no < 1024)%Z →
  (0 <= RetryHandler.base_delay self)%Q →
  (0 <= RetryHandler.max_delay self)%Q →
  ∃ w' j, backoff self attempt_no w = (Ret tt, w', j) ∧
          calls j = 0%nat ∧
          sleeps j = (if (attempt_no <? RetryHandler.max_retries self)%Z then 1 else 0)%nat ∧
          sleeps_within 0 (RetryHandler.max_delay self + 3) j ∧
          same_objects w w'.
Proof.
  intros Hcap Hb Hm.
  destruct (backoff_run self attempt_no w Hcap Hb Hm) as (w' & j & Hrun & Hc & Hs & Hw).
  destruct (backoff_outcome self attempt_no w) as (r & w'' & j' & Hrun' & _ & _ & Hsame).
  rewrite Hrun in Hrun'. inversion Hrun'; subst. by exists w'', j'.
Qed.

(** X12. The first success ends [execute]: when the first invocation of the
    thunk returns, [execute] (with [max_retries >= 0]) returns that value
    with the world as the thunk left it, after that one invocation and
    without any sleep. *)
Theorem execute_returns_first_success {A} (self : RetryHandler.t) (func : thunk A)
    w (v : A) w1 :
  (0 <= RetryHandler.max_retries self)%Z →
  func w = (Ret v, w1) →
  execute self func w = (Ret v, w1, [EvCall]).
Proof.
  intros Hn Hf. unfold execute. rewrite (range_first _ Hn). simpl.
  unfold bind, attempt, invoke. by rewrite Hf.
Qed.

Lemma execute_loop_recovers {A} (self : RetryHandler.t)
    (respond : U → result A * U) (v : A) :
  (0 <= RetryHandler.base_delay self)%Q →
  (0 <= RetryHandler.max_delay self)%Q →
  ∀ (l1 : list Z) (a : Z) (l2 : list Z) (last_error : option exn) w,
    Forall (fun a => (a < RetryHandler.max_retries self)%Z ∧ (a < 1024)%Z) l1 →
    (∀ i, (i < length l1)%nat →
       ∃ e, fst (respond (upstream_after respond i (upstream w))) = Raise e ∧
            exn_is_Exception e = true ∧
            RetryHandler.is_retryable_error e = true) →
    fst (respond (upstream_after respond (length l1) (upstream w))) = Ret v →
    ∃ w' j,
      execute_loop self (upstream_thunk respond) (l1 ++ a :: l2) last_error w
        = (Ret v, w', j) ∧
      calls j = S (length l1) ∧
      sleeps j = length l1 ∧
      sleeps_within 0 (RetryHandler.max_delay self + 3) j ∧
      upstream w' = upstream_after respond (S (length l1)) (upstream w).
Proof.
  intros Hb Hm. induction l1 as [|b l1 IH]; intros a l2 last_error w Hl Hfail Hok.
  - simpl in *. unfold bind, attempt, invoke, upstream_thunk. rewrite Hok.
    eexists _, _. split; [reflexivity|].
    split; [reflexivity|]. split; [reflexivity|].
    split; [apply sleeps_within_call|reflexivity].
  - inversion Hl as [|? ? [Hlt Hcap] Hl']; subst.
    destruct (Hfail 0%nat ltac:(simpl; lia)) as (e & He & Hex & Hre). simpl in He.
    assert (Hf : upstream_thunk respond w
                 = (Raise e, mkWorld (clock w) (lags w) (entropy w) (_rate_limiter w)
                               (_retry_handler w) (_cache w) (_source_router w)
                               (snd (respond (upstream w)))))
      by (unfold upstream_thunk; by rewrite He).
    destruct (backoff_keeps_objects self b
                (mkWorld (clock w) (lags w) (entropy w) (_rate_limiter w)
                         (_retry_handler w) (_cache w) (_source_router w)
                         (snd (respond (upstream w)))) Hcap Hb Hm)
      as (w2 & jb & Hback & Hcb & Hsb & Hwb & Hsame).
    assert ((b <? RetryHandler.max_retries self)%Z = true) as Hb' by lia.
    rewrite Hb' in Hsb.
    assert (Hu : upstream w2 = snd (respond (upstream w))) by apply Hsame.
    destruct (IH a l2 (Some e) w2 Hl') as (w' & j & Hrun & Hc & Hs & Hw & Hup).
    { intros i Hi. rewrite Hu. apply (Hfail (S i)). simpl. lia. }
    { rewrite Hu. exact Hok. }
    exists w', (EvCall :: jb ++ j)%list.
    change ((b :: l1) ++ a :: l2)%list with (b :: (l1 ++ a :: l2))%list.
    rewrite (execute_loop_retry _ _ _ _ _ _ _ _ Hf Hex Hre).
    rewrite (bind_Ret _ _ _ _ _ _ Hback), Hrun.
    split; [reflexivity|].
    change (EvCall :: jb ++ j)%list with ([EvCall] ++ (jb ++ j))%list.
    rewrite !calls_app, !sleeps_app, Hcb, Hsb, Hc, Hs.
    change (calls [EvCall]) with 1%nat. change (sleeps [EvCall]) with 0%nat.
    split; [simpl; lia|]. split; [simpl; lia|]. split.
    { apply sleeps_within_app; [apply sleeps_within_call|by apply sleeps_within_app]. }
    rewrite Hup, Hu. reflexivity.
Qed.

(** X13. Recovery: when the upstream fails retryably on its next [k]
    requests and answers the one after, with [k <= max_retries], [k] at most
    1024, and delays that [time.sleep] takes ([base_delay] and [max_delay]
    not negative, [max_delay + 3] within [sleep_max]), [execute] returns
    that answer after exactly [k + 1] invocations and [k] backoff sleeps,
    each of at most [max_delay + 3] seconds. *)
Theorem execute_recovers_after_failures {A} (self : RetryHandler.t)
    (respond : U → result A * U) (k : nat) (v : A) w :
  (Z.of_nat k <= RetryHandler.max_retries self)%Z →
  (k <= 1024)%nat →
  (0 <= RetryHandler.base_delay self)%Q →
  (0 <= RetryHandler.max_delay self)%Q →
  (RetryHandler.max_delay self + 3 <= sleep_max)%Q →
  (∀ i, (i < k)%nat →
     ∃ e, fst (respond (upstream_after respond i (upstream w))) = Raise e ∧
          exn_is_Exception e = true ∧
          RetryHandler.is_retryable_error e = true) →
  fst (respond (upstream_after respond k (upstream w))) = Ret v →
  ∃ w' j,
    execute self (upstream_thunk respond) w = (Ret v, w', j) ∧
    calls j = S k ∧
    sleeps j = k ∧
    sleeps_within 0 (RetryHandler.max_delay self + 3) j ∧
    sleeps_within 0 sleep_max j ∧
    upstream w' = upstream_after respond (S k) (upstream w).
Proof.
  intros Hk Hcap Hb Hm Hsleep Hfail Hok. unfold execute.
  destruct (range_split _ _ Hk) as (rest & ->).
  assert (Hlen : length (range (Z.of_nat k)) = k) by (rewrite range_length; lia).
  destruct (execute_loop_recovers self respond v Hb Hm
              (range (Z.of_nat k)) (Z.of_nat k) rest None w)
    as (w' & j & Hrun & Hc & Hs & Hw & Hup).
  - eapply Forall_impl; [apply range_below|]. simpl. intros a Ha. lia.
  - rewrite Hlen. exact Hfail.
  - rewrite Hlen. exact Hok.
  - rewrite Hlen in *. exists w', j.
    split; [exact Hrun|]. split; [exact Hc|]. split; [exact Hs|]. split; [exact Hw|].
    split; [by apply sleeps_within_weaken with (RetryHandler.max_delay self + 3)%Q|exact Hup].
Qed.

(** X14. With a negative [max_retries] the loop body never runs: the thunk
    is not invoked at all and [raise last_error], with [last_error] still
    [None], raises a [TypeError]. *)
Theorem execute_without_attempts {A} (self : RetryHandler.t) (func : thunk A) w :
  (RetryHandler.max_retries self < 0)%Z →
  execute self func w = (Raise TypeError_raise_None, w, []).
Proof.
  intros Hn. unfold execute, range.
  by replace (Z.to_nat (RetryHandler.max_retries self + 1)) with 0%nat by lia.
Qed.

(** X15. Only [Exception]s are caught: a failure outside that hierarchy
    ([KeyboardInterrupt], [SystemExit]) leaves [execute] after the one
    invocation that raised it, without a sleep, even when its text carries a
    retryable keyword. *)
Theorem execute_lets_base_exceptions_through {A} (self : RetryHandler.t)
    (func : thunk A) w e w1 :
  (0 <= RetryHandler.max_retries self)%Z →
  func w = (Raise e, w1) →
  exn_is_Exception e = false →
  execute self func w = (Raise e, w1, [EvCall]).
Proof.
  intros Hn Hf Hex. unfold execute. rewrite (range_first _ Hn).
  apply execute_loop_reraise; [exact Hf|by left].
Qed.


(** *** Pacing: further properties *)




(** *** Governed requests: further properties *)

(** The cache write: the ttl is assigned and the clock read before [set]
    computes the expiry; either stays when [set] raises. *)
Lemma cache_store_run (ttl : Z) (key : string) (value : pyval) w :
  cache_store ttl key value w =
    let cache := DataCache.set_ttl_seconds (default (DataCache.__init__ 300) (_cache w)) ttl in
    let now := (clock w + hd 0 (lags w))%Q in
    match DataCache.set cache now key value with
    | Ret stored =>
        (Ret tt,
         mkWorld now (tl (lags w)) (entropy w) (_rate_limiter w) (_retry_handler w)
                 (Some stored) (_source_router w) (upstream w),
         [])
    | Raise e =>
        (Raise e,
         mkWorld now (tl (lags w)) (entropy w) (_rate_limiter w) (_retry_handler w)
                 (Some cache) (_source_router w) (upstream w),
         [])
    end.
Proof.
  unfold cache_store, bind, get_cache, store_cache, datetime_now, time_time, lift.
  cbv beta zeta. destruct (_cache w); simpl; by destruct (DataCache.set _ _ _ _).
Qed.

Lemma cache_get_run (key : string) w :
  ∃ v w', cache_get key w = (Ret v, w', []) ∧
          _retry_handler w' = _retry_handler w ∧
          upstream w' = upstream w.
Proof.
  unfold cache_get, bind, get_cache, store_cache, datetime_now, time_time, ret.
  cbv beta. destruct (_cache w) as [c|]; cbv iota beta.
  - destruct (bool_decide _); by eexists _, _.
  - destruct (bool_decide _); by eexists _, _.
Qed.

Lemma cache_get_unexpired (key : string) w cache value expire_time :
  _cache w = Some cache →
  DataCache._cache cache !! key = Some (value, expire_time) →
  (clock w + hd 0 (lags w) < expire_time)%Q →
  cache_get key w =
    (Ret value,
     mkWorld (clock w + hd 0 (lags w))%Q (tl (lags w)) (entropy w)
             (_rate_limiter w) (_retry_handler w) (Some cache)
             (_source_router w) (upstream w),
     []).
Proof.
  intros Hc Hk Hlt.
  unfold cache_get, bind, get_cache, store_cache, datetime_now, time_time, ret.
  cbv beta. rewrite Hc. cbv iota beta.
  rewrite bool_decide_eq_true_2 by (rewrite Hk; eauto). cbv iota beta.
  by rewrite (get_unexpired _ _ _ _ _ Hk Hlt).
Qed.

Lemma cache_get_expired (key : string) w cache value expire_time :
  _cache w = Some cache →
  DataCache._cache cache !! key = Some (value, expire_time) →
  (expire_time <= clock w + hd 0 (lags w))%Q →
  ∃ w', cache_get key w = (Ret PyNone, w', []) ∧ _retry_handler w' = _retry_handler w.
Proof.
  intros Hc Hk Hle.
  unfold cache_get, bind, get_cache, store_cache, datetime_now, time_time, ret.
  cbv beta. rewrite Hc. cbv iota beta.
  rewrite bool_decide_eq_true_2 by (rewrite Hk; eauto). cbv iota beta.
  rewrite (get_expired _ _ _ _ _ Hk Hle). by eexists.
Qed.

(** What a successful fetch through [get_spot] leaves behind, and what the
    next [get_spot] for the same symbol and source makes of it. *)
Lemma spot_fetch_then_lookup (_fetch_tx : string → thunk pyval)
    (symbol source : string) w output w1 j :
  get_spot_fetch _fetch_tx symbol source true w = (Ret output, w1, j) →
  ((hd 0 (lags w1) < 30)%Q →
   ∃ w2, get_spot _fetch_tx symbol source true w1 = (Ret output, w2, []) ∧
         same_objects w1 w2) ∧
  ((30 <= hd 0 (lags w1))%Q → handler_attempts w1 →
   ∃ r w2 j2, get_spot _fetch_tx symbol source true w1 = (r, w2, j2) ∧
              (1 <= calls j2)%nat).
Proof.
  intros Hrun. rewrite get_spot_fetch_unfold in Hrun.
  destruct (governed_fetch (_fetch_tx symbol) w) as [[[result|e] w0] j0]; [|discriminate].
  cbv zeta in Hrun. unfold bind at 1 in Hrun. rewrite cache_store_run in Hrun.
  cbv zeta in Hrun.
  destruct (DataCache.set _ _ _ _) as [stored|e] eqn:Hset; [|discriminate].
  apply set_returned in Hset.
  unfold ret in Hrun. inversion Hrun; subst; clear Hrun.
  set (output := PyDict _).
  set (stored := DataCache.mk _ _).
  set (w1 := mkWorld _ _ _ _ _ _ _ _).
  assert (Hc : _cache w1 = Some stored) by reflexivity.
  assert (Hk : DataCache._cache stored !! spot_cache_key symbol source
               = Some (output, (clock w1 + inject_Z 30)%Q))
    by apply lookup_insert_eq.
  split.
  - intros Hlag.
    assert (Hlt : (clock w1 + hd 0 (lags w1) < clock w1 + inject_Z 30)%Q)
      by (unfold inject_Z; lra).
    eexists. split.
    + unfold get_spot. rewrite (bind_Ret _ _ _ _ _ _ (cache_get_unexpired _ _ _ _ _ Hc Hk Hlt)).
      reflexivity.
    + by repeat split.
  - intros Hlag Hok.
    assert (Hle : (clock w1 + inject_Z 30 <= clock w1 + hd 0 (lags w1))%Q)
      by (unfold inject_Z; lra).
    destruct (cache_get_expired _ _ _ _ _ Hc Hk Hle) as (w2 & Hget & Hh).
    assert (Hok2 : handler_attempts w2) by (intros h Hw; apply Hok; congruence).
    destruct (get_spot_fetch _fetch_tx symbol source true w2) as [[r w3] j3] eqn:Hfetch.
    exists r, w3, j3. split.
    + unfold get_spot. rewrite (bind_Ret _ _ _ _ _ _ Hget).
      change (truthy PyNone) with false. cbv iota. by rewrite Hfetch.
    + rewrite get_spot_fetch_unfold in Hfetch. fetch_was_invoked Hfetch Hok2.
Qed.


(** X21. [--no-cache] does not bypass the cache: [cmd_spot] hands the flag
    to [get_spot] as [source], so caching stays on.  A result that
    [cmd_spot] fetched under [no_cache = True] is returned by the next such
    call, within 30 seconds, straight from the cache, without any
    invocation of the upstream. *)
Theorem no_cache_flag_still_caches (_fetch_tx : string → thunk pyval)
    (symbol : string) w output w1 j :
  cmd_spot _fetch_tx symbol true w = (Ret output, w1, j) →
  (1 <= calls j)%nat →
  (hd 0 (lags w1) < 30)%Q →
  ∃ w2, cmd_spot _fetch_tx symbol true w1 = (Ret output, w2, []).
Proof.
  unfold cmd_spot. simpl negb. cbv zeta. intros Hrun Hcalls Hlag.
  unfold get_spot in Hrun.
  destruct (cache_get_run (spot_cache_key symbol (str_of_bool false)) w)
    as (v & w0 & Hget & _).
  rewrite (bind_Ret _ _ _ _ _ _ Hget) in Hrun.
  destruct (truthy v).
  - unfold ret in Hrun. inversion Hrun; subst. unfold calls in Hcalls. simpl in Hcalls. lia.
  - destruct (get_spot_fetch _fetch_tx symbol (str_of_bool false) true w0)
      as [[r w1'] j'] eqn:Hfetch.
    simpl in Hrun. inversion Hrun; subst.
    destruct (proj1 (spot_fetch_then_lookup _ _ _ _ _ _ _ Hfetch) Hlag) as (w2 & H2 & _).
    by exists w2.
Qed.

(** *** The [cached] decorator *)

Lemma cache_set_run (key : string) (value : pyval) w :
  cache_set key value w =
    let cache := default (DataCache.__init__ 300) (_cache w) in
    let now := (clock w + hd 0 (lags w))%Q in
    match DataCache.set cache now key value with
    | Ret stored =>
        (Ret tt,
         mkWorld now (tl (lags w)) (entropy w) (_rate_limiter w) (_retry_handler w)
                 (Some stored) (_source_router w) (upstream w),
         [])
    | Raise e =>
        (Raise e,
         mkWorld now (tl (lags w)) (entropy w) (_rate_limiter w) (_retry_handler w)
                 (Some cache) (_source_router w) (upstream w),
         [])
    end.
Proof.
  unfold cache_set, bind, get_cache, store_cache, datetime_now, time_time, lift.
  destruct w as [c l e rl rh [cache|] sr u]; simpl; by destruct (DataCache.set _ _ _ _).
Qed.

Lemma cache_get_None_stored (key : string) w cache expire_time :
  _cache w = Some cache →
  DataCache._cache cache !! key = Some (PyNone, expire_time) →
  ∃ w', cache_get key w = (Ret PyNone, w', []).
Proof.
  intros Hc Hk.
  unfold cache_get, bind, get_cache, store_cache, datetime_now, time_time, ret.
  cbv beta. rewrite Hc. cbv iota beta.
  rewrite bool_decide_eq_true_2 by (rewrite Hk; eauto). cbv iota beta.
  unfold DataCache.get. rewrite Hk. destruct (Qltb _ _); by eexists.
Qed.

(** X10. What the [cached] wrapper keeps.  After a call that had to run the
    function: a result other than [None], falsy ones such as an empty list
    included, is returned by later calls without running the function, for
    as long as the shared cache's [ttl_seconds] at the time of the call
    lasts, whatever [ttl] the decorator was given; a result of [None] is
    never served, every later call runs the function again. *)
Theorem cached_wrapper_keeps_all_but_None (ttl : Z) (cache_key : string)
    (func : thunk pyval) w result w1 j :
  cached_wrapper ttl cache_key func w = (Ret result, w1, j) →
  calls j = 1%nat →
  ∃ cache,
    _cache w1 = Some cache ∧
    (result ≠ PyNone →
     (hd 0 (lags w1) < inject_Z (DataCache.ttl_seconds cache))%Q →
     ∀ ttl' (func' : thunk pyval),
       ∃ w2, cached_wrapper ttl' cache_key func' w1 = (Ret result, w2, [])) ∧
    (result = PyNone →
     ∀ ttl' (func' : thunk pyval),
       ∃ r w2 j2, cached_wrapper ttl' cache_key func' w1 = (r, w2, j2) ∧
                  (1 <= calls j2)%nat).
Proof.
  unfold cached_wrapper at 1. intros Hrun Hcalls.
  destruct (cache_get_run cache_key w) as (v & w0 & Hget & _).
  rewrite (bind_Ret _ _ _ _ _ _ Hget) in Hrun.
  destruct (negb (is_None v)).
  { unfold ret in Hrun. inversion Hrun; subst. discriminate Hcalls. }
  unfold bind at 1, invoke in Hrun.
  destruct (func w0) as [[res|e] wf]; [|discriminate].
  unfold bind at 1 in Hrun. rewrite cache_set_run in Hrun.
  cbv zeta in Hrun.
  destruct (DataCache.set _ _ _ _) as [stored|e] eqn:Hset; [|discriminate].
  apply set_returned in Hset.
  unfold ret in Hrun. inversion Hrun; subst; clear Hrun.
  set (stored := DataCache.mk _ _).
  set (w1 := mkWorld _ _ _ _ _ _ _ _).
  exists stored. split; [reflexivity|].
  assert (Hc : _cache w1 = Some stored) by reflexivity.
  assert (Hk : DataCache._cache stored !! cache_key
               = Some (result, (clock w1 + inject_Z (DataCache.ttl_seconds stored))%Q))
    by apply lookup_insert_eq.
  split.
  - intros Hres Hlag ttl' func'.
    assert (Hlt : (clock w1 + hd 0 (lags w1)
                   < clock w1 + inject_Z (DataCache.ttl_seconds stored))%Q) by lra.
    eexists. unfold cached_wrapper.
    rewrite (bind_Ret _ _ _ _ _ _ (cache_get_unexpired _ _ _ _ _ Hc Hk Hlt)).
    destruct result; try contradiction; reflexivity.
  - intros -> ttl' func'.
    destruct (cache_get_None_stored _ _ _ _ Hc Hk) as (w2 & Hget2).
    unfold cached_wrapper. rewrite (bind_Ret _ _ _ _ _ _ Hget2).
    change (negb (is_None PyNone)) with false. cbv iota.
    unfold bind at 1, invoke.
    destruct (func' w2) as [[res|e] wf2].
    + match goal with |- context [let (_, _) := ?m wf2 in _] =>
        destruct (m wf2) as [[r3 w3] j3] end.
      eexists _, _, _. split; [reflexivity|].
      rewrite !calls_app. change (calls [EvCall]) with 1%nat. lia.
    + eexists _, _, _. split; [reflexivity|]. unfold calls; simpl; lia.
Qed.

(** *** minute.py: failover *)

Lemma get_retry_handler_run w :
  ∃ handler w', get_retry_handler w = (Ret handler, w', []).
Proof. unfold get_retry_handler. destruct (_retry_handler w); by eexists _, _. Qed.

(** Pacing and the retry-wrapped fetch, followed by whatever the caller
    does with the outcome. *)
Lemma paced_fetch_then {A B} (func : thunk A) (k : result A → M B) w :
  (limiter_wait ;; handler <- get_retry_handler ;
   r <- attempt (execute handler func) ; k r) w
  = (let '(r, w', j) := governed_fetch func w in
     let '(r2, w2, j2) := k r w' in (r2, w2, (j ++ j2)%list)).
Proof.
  destruct (limiter_wait_returns w) as (w1 & j1 & Hwait & _).
  destruct (get_retry_handler_run w1) as (handler & w2 & Hget).
  unfold governed_fetch.
  rewrite !(bind_Ret _ _ _ _ _ _ Hwait), !(bind_Ret _ _ _ _ _ _ Hget).
  unfold bind, attempt.
  destruct (execute handler func w2) as [[r w3] j3].
  destruct (k r w3) as [[r2 w4] j4]. simpl.
  by rewrite <- app_assoc.
Qed.

Section MinuteRuns.

Variable stock_zh_a_minute : string → Z → string → thunk (U:=U) (list pyval).
Variable stock_zh_a_hist_min_em : string → Z → string → thunk (U:=U) (list pyval).

Lemma get_minute_step (depth : nat) (symbol : string) (period : Z)
    (source adjust : string) (use_cache : bool) :
  get_minute stock_zh_a_minute stock_zh_a_hist_min_em
             (S depth) symbol period source adjust use_cache
  = (cached <- cache_lookup use_cache (minute_cache_key symbol period source adjust) ;
     if truthy cached then ret cached
     else
       limiter_wait ;;
       handler <- get_retry_handler ;
       r <- attempt (execute handler
                       (minute_fetch stock_zh_a_minute stock_zh_a_hist_min_em
                                     symbol period source adjust)) ;
       match r with
       | Raise e =>
           minute_except stock_zh_a_minute stock_zh_a_hist_min_em
                         depth symbol period source adjust use_cache e
       | Ret records =>
           let output := PyDict [ ("symbol", PyStr symbol);
                                  ("source", PyStr source);
                                  ("period", PyInt period);
                                  ("adjust", PyStr adjust);
                                  ("count", PyInt (Z.of_nat (length records)));
                                  ("data", PyList records) ] in
           (if use_cache
            then cache_store 300 (minute_cache_key symbol period source adjust) output
            else ret tt) ;;
           ret output
       end).
Proof. reflexivity. Qed.

Lemma get_minute_failure (depth : nat) (symbol : string) (period : Z)
    (source adjust : string) (use_cache : bool) w0 cached w j0 e w' j :
  cache_lookup use_cache (minute_cache_key symbol period source adjust) w0
    = (Ret cached, w, j0) →
  truthy cached = false →
  governed_fetch (minute_fetch stock_zh_a_minute stock_zh_a_hist_min_em
                               symbol period source adjust) w = (Raise e, w', j) →
  get_minute stock_zh_a_minute stock_zh_a_hist_min_em
             (S depth) symbol period source adjust use_cache w0
  = (let '(r, w2, j2) :=
       minute_except stock_zh_a_minute stock_zh_a_hist_min_em
                     depth symbol period source adjust use_cache e w' in
     (r, w2, (j0 ++ j ++ j2)%list)).
Proof.
  intros Hlook Hfalsy Hfetch. rewrite get_minute_step.
  rewrite (bind_Ret _ _ _ _ _ _ Hlook), Hfalsy.
  rewrite paced_fetch_then, Hfetch.
  destruct (minute_except _ _ _ _ _ _ _ _ _ _) as [[r w2] j2].
  reflexivity.
Qed.

Lemma minute_stays (depth : nat) (symbol : string) (period : Z)
    (source adjust : string) (use_cache : bool) e w' router w'' :
  get_source_router w' = (Ret router, w'', []) →
  SourceRouter.get_source router "minute" (Some source) = Some source →
  minute_except stock_zh_a_minute stock_zh_a_hist_min_em
                depth symbol period source adjust use_cache e w'
  = (Raise e, (if exn_is_Exception e then w'' else w'), []).
Proof.
  intros Hrouter Hsame. unfold minute_except.
  destruct (exn_is_Exception e); [|reflexivity].
  rewrite (bind_Ret _ _ _ _ _ _ Hrouter), Hsame.
  rewrite String.eqb_refl, andb_false_r. reflexivity.
Qed.

Lemma minute_hops (depth : nat) (symbol : string) (period : Z)
    (source adjust : string) (use_cache : bool) e w' router w'' alt_source :
  exn_is_Exception e = true →
  get_source_router w' = (Ret router, w'', []) →
  SourceRouter.get_source router "minute" (Some source) = Some alt_source →
  alt_source ≠ "" →
  alt_source ≠ source →
  minute_except stock_zh_a_minute stock_zh_a_hist_min_em
                depth symbol period source adjust use_cache e w'
  = get_minute stock_zh_a_minute stock_zh_a_hist_min_em
               depth symbol period alt_source adjust use_cache
               (with_source_router w'' (SourceRouter.mark_failed router "minute" source)).
Proof.
  intros Hex Hrouter Halt Hne1 Hne2. unfold minute_except. rewrite Hex.
  rewrite (bind_Ret _ _ _ _ _ _ Hrouter), Halt.
  apply String.eqb_neq in Hne1, Hne2. rewrite Hne1, Hne2. simpl.
  unfold bind at 1, store_source_router.
  by destruct (get_minute _ _ _ _ _ _ _ _ _) as [[r w2] j2].
Qed.

Lemma usable_is_preferred (router : SourceRouter.t) (operation source : string) :
  source ≠ "" →
  source ∈ SourceRouter.available_sources router operation →
  source ∉ SourceRouter.failed router operation →
  SourceRouter.get_source router operation (Some source) = Some source.
Proof.
  intros Hne Hin Hnf. unfold SourceRouter.get_source.
  apply String.eqb_neq in Hne. rewrite Hne. simpl.
  rewrite bool_decide_eq_true_2; [reflexivity|]. by apply elem_of_candidates.
Qed.

(** X27. [get_minute] does not fail over from a usable source.  When the
    source asked for is a non-empty configured candidate for ["minute"] that
    is not marked failed (["em"] on a fresh router), a failure of its fetch,
    retries exhausted or not, is raised to the caller: the router answers
    with that same source, so no alternate is tried and nothing is marked
    failed. *)
Theorem get_minute_keeps_usable_source (depth : nat) (symbol : string) (period : Z)
    (source adjust : string) (use_cache : bool) w0 cached w j0 e w' j router w'' :
  cache_lookup use_cache (minute_cache_key symbol period source adjust) w0
    = (Ret cached, w, j0) →
  truthy cached = false →
  governed_fetch (minute_fetch stock_zh_a_minute stock_zh_a_hist_min_em
                               symbol period source adjust) w = (Raise e, w', j) →
  get_source_router w' = (Ret router, w'', []) →
  source ≠ "" →
  source ∈ SourceRouter.available_sources router "minute" →
  source ∉ SourceRouter.failed router "minute" →
  get_minute stock_zh_a_minute stock_zh_a_hist_min_em
             (S depth) symbol period source adjust use_cache w0
  = (Raise e, (if exn_is_Exception e then w'' else w'), (j0 ++ j)%list).
Proof.
  intros Hlook Hfalsy Hfetch Hrouter Hne Hin Hnf.
  rewrite (get_minute_failure _ _ _ _ _ _ _ _ _ _ _ _ _ Hlook Hfalsy Hfetch).
  rewrite (minute_stays _ _ _ _ _ _ _ _ _ _ Hrouter (usable_is_preferred _ _ _ Hne Hin Hnf)).
  by rewrite app_nil_r.
Qed.

(** X28. [get_minute] fails over from a source the router does not offer.
    When the fetch raises an [Exception] and the router, asked for
    ["minute"] with the source as preferred, answers with a different,
    non-empty source, [get_minute] marks the source it was given as failed
    and runs again, from the cache lookup on, with the router's answer. *)
Theorem get_minute_fails_over (depth : nat) (symbol : string) (period : Z)
    (source adjust : string) (use_cache : bool)
    w0 cached w j0 e w' j router w'' alt_source :
  cache_lookup use_cache (minute_cache_key symbol period source adjust) w0
    = (Ret cached, w, j0) →
  truthy cached = false →
  governed_fetch (minute_fetch stock_zh_a_minute stock_zh_a_hist_min_em
                               symbol period source adjust) w = (Raise e, w', j) →
  exn_is_Exception e = true →
  get_source_router w' = (Ret router, w'', []) →
  SourceRouter.get_source router "minute" (Some source) = Some alt_source →
  alt_source ≠ "" →
  alt_source ≠ source →
  get_minute stock_zh_a_minute stock_zh_a_hist_min_em
             (S depth) symbol period source adjust use_cache w0
  = (let '(r, w2, j2) :=
       get_minute stock_zh_a_minute stock_zh_a_hist_min_em
                  depth symbol period alt_source adjust use_cache
                  (with_source_router w'' (SourceRouter.mark_failed router "minute" source)) in
     (r, w2, (j0 ++ j ++ j2)%list)).
Proof.
  intros Hlook Hfalsy Hfetch Hex Hrouter Halt Hne1 Hne2.
  rewrite (get_minute_failure _ _ _ _ _ _ _ _ _ _ _ _ _ Hlook Hfalsy Hfetch).
  by rewrite (minute_hops _ _ _ _ _ _ _ _ _ _ _ Hex Hrouter Halt Hne1 Hne2).
Qed.

(** X29. [get_minute] hops at most once.  After a failover from [source] to
    the router's answer [alt_source], a failure of the second fetch is
    raised to the caller without another hop, provided the lookup and the
    fetch of the second run left the router alone: the router offered
    [alt_source], so it still prefers it.  The router ends with [source],
    and nothing else, newly marked failed. *)
Theorem get_minute_hops_at_most_once (depth : nat) (symbol : string) (period : Z)
    (source adjust : string) (use_cache : bool)
    w0 cached w j0 e w' j router w'' alt_source cached2 w2 j2 e2 w3 j3 :
  cache_lookup use_cache (minute_cache_key symbol period source adjust) w0
    = (Ret cached, w, j0) →
  truthy cached = false →
  governed_fetch (minute_fetch stock_zh_a_minute stock_zh_a_hist_min_em
                               symbol period source adjust) w = (Raise e, w', j) →
  exn_is_Exception e = true →
  get_source_router w' = (Ret router, w'', []) →
  SourceRouter.get_source router "minute" (Some source) = Some alt_source →
  alt_source ≠ "" →
  alt_source ≠ source →
  cache_lookup use_cache (minute_cache_key symbol period alt_source adjust)
               (with_source_router w'' (SourceRouter.mark_failed router "minute" source))
    = (Ret cached2, w2, j2) →
  truthy cached2 = false →
  governed_fetch (minute_fetch stock_zh_a_minute stock_zh_a_hist_min_em
                               symbol period alt_source adjust) w2 = (Raise e2, w3, j3) →
  _source_router w3 = Some (SourceRouter.mark_failed router "minute" source) →
  get_minute stock_zh_a_minute stock_zh_a_hist_min_em
             (S (S depth)) symbol period source adjust use_cache w0
  = (Raise e2, w3, (j0 ++ j ++ j2 ++ j3)%list).
Proof.
  intros Hlook Hfalsy Hfetch Hex Hrouter Halt Hne1 Hne2 Hlook2 Hfalsy2 Hfetch2 Hkeep.
  rewrite (get_minute_failure _ _ _ _ _ _ _ _ _ _ _ _ _ Hlook Hfalsy Hfetch).
  rewrite (minute_hops _ _ _ _ _ _ _ _ _ _ _ Hex Hrouter Halt Hne1 Hne2).
  rewrite (get_minute_failure _ _ _ _ _ _ _ _ _ _ _ _ _ Hlook2 Hfalsy2 Hfetch2).
  assert (Hrouter2 : get_source_router w3
            = (Ret (SourceRouter.mark_failed router "minute" source), w3, []))
    by (unfold get_source_router; by rewrite Hkeep).
  apply get_source_usable in Halt as [Hin Hnf].
  assert (Hstill : SourceRouter.get_source
                     (SourceRouter.mark_failed router "minute" source)
                     "minute" (Some alt_source) = Some alt_source).
  { apply usable_is_preferred; [exact Hne1|exact Hin|].
    rewrite failed_mark_failed, decide_True by done.
    intros H. apply elem_of_union in H as [H|H]; [|by apply Hnf].
    apply elem_of_singleton in H. by apply Hne2. }
  rewrite (minute_stays _ _ _ _ _ _ _ _ _ _ Hrouter2 Hstill).
  rewrite app_nil_r. by destruct (exn_is_Exception e2).
Qed.

End MinuteRuns.

End Runs.

(** * The properties on concrete runs

    The texts of the sample errors are ASCII, or ASCII and Chinese
    characters; Chinese characters have no case, so on these texts
    [str.lower] is the folding [lower]. *)

Local Open Scope Q_scope.
#[local] Existing Instance ascii_str_lower.

(** A concrete expiry is within the range of [datetime]. *)
Ltac in_datetime_range :=
  split; [simpl; lia|split; vm_compute; discriminate].



(** C3 as stated fails: [set] takes no ttl.  The same call, [set("k", 1)] at
    second 0, on two caches that hold the same entries stores expiry 300 on
    one and 30 on the other, following the instance's [ttl_seconds]; at
    second 100 the first still answers and the second misses. *)
Lemma set_expiry_follows_the_instance :
  let fresh := DataCache.__init__ 300 in
  let tuned := DataCache.set_ttl_seconds fresh 30 in
  DataCache._cache fresh = DataCache._cache tuned ∧
  ∃ c_fresh c_tuned,
    DataCache.set fresh 0 "k" (PyInt 1) = Ret c_fresh ∧
    DataCache.set tuned 0 "k" (PyInt 1) = Ret c_tuned ∧
    DataCache._cache c_fresh !! "k" = Some (PyInt 1, 0 + inject_Z 300) ∧
    DataCache._cache c_tuned !! "k" = Some (PyInt 1, 0 + inject_Z 30) ∧
    fst (DataCache.get c_fresh 100 "k") = PyInt 1 ∧
    fst (DataCache.get c_tuned 100 "k") = PyNone.
Proof.
  cbv zeta. split; [reflexivity|].
  eexists _, _. split; [reflexivity|]. split; [reflexivity|]. by repeat split.
Qed.

(** C4 as stated fails: [mark_failed("spot", "tx")] on a new router puts
    ["tx"] in the failed-set of ["spot"], whose candidates are ["em"] and
    ["sina"]. *)
Lemma mark_failed_outside_candidates :
  "tx" ∈ SourceRouter.failed
           (router_run (SourceRouter.__init__ None) [CallMarkFailed "spot" "tx"]) "spot" ∧
  SourceRouter.available_sources
    (router_run (SourceRouter.__init__ None) [CallMarkFailed "spot" "tx"]) "spot"
    = ["em"; "sina"]%string ∧
  ¬ failed_within_candidates
      (router_run (SourceRouter.__init__ None) [CallMarkFailed "spot" "tx"]).
Proof.
  assert (Hin : "tx" ∈ SourceRouter.failed
            (router_run (SourceRouter.__init__ None) [CallMarkFailed "spot" "tx"]) "spot")
    by reflexivity.
  assert (Hav : SourceRouter.available_sources
            (router_run (SourceRouter.__init__ None) [CallMarkFailed "spot" "tx"]) "spot"
            = ["em"; "sina"]%string)
    by reflexivity.
  split; [exact Hin|]. split; [exact Hav|].
  intros Hinv. apply Hinv in Hin. rewrite Hav in Hin.
  apply list_elem_of_In in Hin. simpl in Hin.
  destruct Hin as [H|[H|[]]]; discriminate H.
Qed.

(** C1 as stated fails: [get_spot("600519")] against a server that always
    times out, the router holding the alternates ["em"] and ["sina"] for
    ["spot"] (so [get_source("spot", "tx")] offers ["em"], which differs from
    ["tx"]).  The timeout is raised to the caller after the 4 attempts of one
    retry sequence and the router is as it was: nothing marked failed, no
    second sequence. *)
Lemma get_spot_has_no_failover :
  let run := get_spot (λ _, always_times_out) "600519" "tx" true quiet_world in
  fst (fst run) = Raise timeout_error ∧
  calls (snd run) = 4%nat ∧
  upstream (snd (fst run)) = 4%nat ∧
  _source_router (snd (fst run)) = Some (SourceRouter.__init__ None) ∧
  SourceRouter.get_source (SourceRouter.__init__ None) "spot" (Some "tx") = Some "em" ∧
  "em" ≠ "tx".
Proof.
  cbv zeta. split; [vm_compute; reflexivity|]. split; [vm_compute; reflexivity|].
  split; [vm_compute; reflexivity|]. split; [vm_compute; reflexivity|].
  split; [vm_compute; reflexivity|]. discriminate.
Qed.

(** C5 as stated fails: [RetryHandler(max_retries=2, base_delay=-5.0,
    enable_random=False)] has [max_retries >= 0] and the server times out
    on every request, a retryable failure; yet the thunk is invoked once,
    not three times, and what [execute] raises is the [ValueError] of
    [time.sleep(-5.0)], not the timeout. *)
Lemma execute_stops_at_negative_delay :
  (0 <= RetryHandler.max_retries negative_handler)%Z ∧
  fails_retryably always_times_out ∧
  ∃ w',
    execute negative_handler always_times_out (world_at 0 [] [])
      = (Raise ValueError_sleep, w', [EvCall]) ∧
    calls [EvCall] ≠ Z.to_nat (RetryHandler.max_retries negative_handler + 1) ∧
    ValueError_sleep ≠ timeout_error.
Proof.
  split; [simpl; lia|]. split.
  - intros w. eexists _, _. split; [reflexivity|]. split; reflexivity.
  - eexists. split; [vm_compute; reflexivity|]. split; discriminate.
Qed.


(** C3, as the code has it, on a new cache: [set("k", 1)] at second 0 under
    the default ttl of 300, then again at second 100 after assigning 30. *)
Lemma second_set_replaces_first :
  ∃ c1 c2,
    DataCache.set (DataCache.__init__ 300) 0 "k" (PyInt 1) = Ret c1 ∧
    DataCache.set (DataCache.set_ttl_seconds c1 30) 100 "k" (PyInt 2) = Ret c2 ∧
    DataCache._cache c1 !! "k"
      = Some (PyInt 1, 0 + inject_Z (DataCache.ttl_seconds (DataCache.__init__ 300))) ∧
    DataCache._cache c2 !! "k" = Some (PyInt 2, 100 + inject_Z 30) ∧
    DataCache.set (DataCache.set_ttl_seconds (DataCache.__init__ 300) 30) 100 "k" (PyInt 2)
      = Ret c2 ∧
    ∀ t, fst (DataCache.get c2 t "k")
         = if Qltb t (100 + inject_Z 30) then PyInt 2 else PyNone.
Proof.
  apply (set_replaces_value_and_expiry (DataCache.__init__ 300) 0 100 30 "k"
           (PyInt 1) (PyInt 2)); in_datetime_range.
Defined.

(** C5, as the code has it, on a server that always times out, under the
    default policy: 4 invocations, 3 sleeps of at most 63 seconds, and the
    timeout of the last one is raised. *)
Lemma execute_exhausts_retries_on_timeouts :
  ∃ e w_pre w' j,
    execute default_handler always_times_out (world_at 0 [] [])
      = (Raise e, w', (j ++ [EvCall])%list) ∧
    always_times_out w_pre = (Raise e, w') ∧
    calls (j ++ [EvCall]) = 4%nat ∧
    sleeps (j ++ [EvCall]) = 3%nat ∧
    sleeps_within 0 (60 + 3) j ∧
    sleeps_within 0 sleep_max j ∧
    (RetryHandler.max_retries default_handler = 0%Z → j = []).
Proof.
  apply (execute_exhausts_retries default_handler always_times_out (world_at 0 [] [])).
  - simpl. lia.
  - simpl. lra.
  - simpl. lra.
  - vm_compute. discriminate.
  - intros w. eexists _, _. split; [reflexivity|]. split; reflexivity.
Defined.

(** C6 on a server whose answer cannot be decoded: one invocation, the
    [KeyError] raised at once, no sleep. *)
Lemma execute_reraises_decode_error :
  execute default_handler always_garbled (world_at 0 [] [])
    = (Raise decode_error, snd (always_garbled (world_at 0 [] [])), [EvCall]) ∧
  calls [EvCall] = 1%nat ∧ sleeps [EvCall] = 0%nat.
Proof.
  apply (execute_non_retryable_once default_handler always_garbled (world_at 0 [] [])
           decode_error (snd (always_garbled (world_at 0 [] [])))).
  - simpl. lia.
  - reflexivity.
  - apply not_retryable_iff. reflexivity.
Defined.


(** C4 on a run whose [mark_failed] calls all name configured candidates. *)
Lemma sample_router_calls_keep_invariant :
  Forall (marks_a_candidate SourceRouter.DEFAULT_SOURCES) sample_router_calls ∧
  failed_within_candidates (router_run (SourceRouter.__init__ None) sample_router_calls).
Proof.
  assert (H : Forall (marks_a_candidate SourceRouter.DEFAULT_SOURCES) sample_router_calls).
  { unfold sample_router_calls.
    repeat match goal with
           | |- Forall _ (_ :: _) => constructor
           | |- Forall _ [] => constructor
           end;
      try exact I; apply list_elem_of_In; vm_compute; tauto. }
  split; [exact H|].
  apply (failed_subset_when_marking_candidates None sample_router_calls). exact H.
Defined.

(** C7 on a cache whose one entry expires at second 300: read at 299, gone
    at 300. *)
Lemma one_entry_cache_expires :
  DataCache.get one_entry_cache 299 "k" = (PyInt 1, one_entry_cache) ∧
  fst (DataCache.get one_entry_cache 300 "k") = PyNone ∧
  DataCache._cache (snd (DataCache.get one_entry_cache 300 "k")) !! "k" = None.
Proof.
  pose proof (proj1 (get_never_stale one_entry_cache 299 "k")
                (PyInt 1) (0 + inject_Z 300) eq_refl) as [Hfresh _].
  pose proof (proj1 (get_never_stale one_entry_cache 300 "k")
                (PyInt 1) (0 + inject_Z 300) eq_refl) as [_ Hgone].
  split; [apply Hfresh; reflexivity|].
  destruct Hgone as (Hnone & Hdel & _); [vm_compute; discriminate|].
  split; [exact Hnone|exact Hdel].
Defined.

(** C8 on the default router after [mark_failed("spot", "em")]: a preferred
    ["sina"] is honoured, a preferred ["em"] yields the first survivor, and
    once ["sina"] has failed too there is no source. *)
Lemma router_em_failed_selection :
  SourceRouter.get_source router_em_failed "spot" (Some "sina") = Some "sina" ∧
  first_surviving (SourceRouter.available_sources router_em_failed "spot")
                  (SourceRouter.failed router_em_failed "spot")
                  (SourceRouter.get_source router_em_failed "spot" (Some "em")) ∧
  SourceRouter.get_source (SourceRouter.mark_failed router_em_failed "spot" "sina")
                          "spot" (Some "em") = None.
Proof.
  split; [|split].
  - apply (proj1 (get_source_selection router_em_failed "spot" (Some "sina")) "sina" eq_refl).
    + discriminate.
    + apply list_elem_of_In. vm_compute. tauto.
    + intros H. vm_compute in H. discriminate H.
  - apply (proj1 (proj2 (get_source_selection router_em_failed "spot" (Some "em")))).
    intros p Hp. inversion Hp; subst. right; right. reflexivity.
  - apply (proj2 (proj2 (get_source_selection
                           (SourceRouter.mark_failed router_em_failed "spot" "sina")
                           "spot" (Some "em")))).
    intros s Hs. apply list_elem_of_In in Hs. vm_compute in Hs.
    destruct Hs as [<-|[<-|[]]]; reflexivity.
Defined.

(** C1, as the code has it, on [get_spot("600519")] against a server that
    always times out: the request raises the timeout and leaves the world
    as the retry-wrapped fetch left it. *)
Lemma get_spot_reraises_timeout :
  let key := spot_cache_key "600519" "tx" in
  let looked := cache_lookup true key quiet_world in
  let fetched := governed_fetch always_times_out (snd (fst looked)) in
  get_spot (λ _, always_times_out) "600519" "tx" true quiet_world
    = (Raise timeout_error, snd (fst fetched), (snd looked ++ snd fetched)%list).
Proof.
  cbv zeta.
  apply (proj1 (requests_reraise_without_failover
                  (λ _, always_times_out) (λ _ _ _ _ _, always_times_out)
                  "600519" "tx" "20240101" "20240131" "daily" "" true)
               quiet_world PyNone
               (snd (fst (cache_lookup true (spot_cache_key "600519" "tx") quiet_world)))
               (snd (cache_lookup true (spot_cache_key "600519" "tx") quiet_world))
               timeout_error
               (snd (fst (governed_fetch always_times_out
                  (snd (fst (cache_lookup true (spot_cache_key "600519" "tx") quiet_world))))))
               (snd (governed_fetch always_times_out
                  (snd (fst (cache_lookup true (spot_cache_key "600519" "tx") quiet_world)))))).
  - vm_compute. reflexivity.
  - reflexivity.
  - vm_compute. reflexivity.
Defined.


(** * The further properties on concrete runs *)

(** X1 on the default router after [mark_failed("spot", "em")]: the source
    returned for a preferred ["em"] is configured and not failed. *)
Lemma router_em_failed_offers_usable :
  "sina" ∈ SourceRouter.available_sources router_em_failed "spot" ∧
  "sina" ∉ SourceRouter.failed router_em_failed "spot".
Proof.
  apply (get_source_returns_usable router_em_failed "spot" (Some "em") "sina").
  reflexivity.
Defined.

(** X4 on a new router: failing and clearing ["em"] changes no answer. *)
Lemma mark_then_clear_em :
  SourceRouter.get_source
    (SourceRouter.mark_success
       (SourceRouter.mark_failed (SourceRouter.__init__ None) "spot" "em") "spot" "em")
    "spot" (Some "em")
  = SourceRouter.get_source (SourceRouter.__init__ None) "spot" (Some "em").
Proof.
  apply (mark_success_undoes_mark_failed (SourceRouter.__init__ None) "spot" "em").
  intros H. vm_compute in H. discriminate H.
Defined.

(** X6 on a cache with one entry: setting ["b"] leaves ["k"] readable. *)
Lemma set_b_leaves_k :
  ∃ c,
    DataCache.set one_entry_cache 10 "b" PyNone = Ret c ∧
    fst (DataCache.get c 20 "k") = fst (DataCache.get one_entry_cache 20 "k") ∧
    DataCache._cache (snd (DataCache.get c 20 "k")) !! "b"
      = Some (PyNone, 10 + inject_Z (DataCache.ttl_seconds one_entry_cache)).
Proof.
  apply (set_leaves_other_keys one_entry_cache 10 20 "b" "k" PyNone).
  - discriminate.
  - in_datetime_range.
Defined.

(** X7 on [DataCache(ttl_seconds=0)]: set and read in the same instant. *)
Lemma zero_ttl_misses :
  ∃ c,
    DataCache.set (DataCache.__init__ 0) 5 "k" (PyInt 1) = Ret c ∧
    fst (DataCache.get c 5 "k") = PyNone.
Proof.
  apply (nonpositive_ttl_never_hits (DataCache.__init__ 0) 5 5 "k" (PyInt 1)).
  - simpl. lia.
  - lra.
  - in_datetime_range.
Defined.

(** X8 on a cache whose entry expired at 300: read at 300, then with the
    clock set back to 0. *)
Lemma expired_entry_stays_gone :
  fst (DataCache.get (snd (DataCache.get one_entry_cache 300 "k")) 0 "k") = PyNone.
Proof.
  apply (miss_is_sticky one_entry_cache 300 0 "k"). reflexivity.
Defined.

(** X12 on a server that answers. *)
Lemma execute_returns_the_answer :
  execute default_handler always_answers (world_at 0 [] [])
    = (Ret quote, snd (always_answers (world_at 0 [] [])), [EvCall]).
Proof.
  apply (execute_returns_first_success default_handler always_answers
           (world_at 0 [] []) quote (snd (always_answers (world_at 0 [] [])))).
  - simpl. lia.
  - reflexivity.
Defined.

(** X13 on a server that times out twice and then answers: three
    invocations, two sleeps, the answer returned. *)
Lemma execute_recovers_from_two_timeouts :
  ∃ w' j,
    execute plain_handler (upstream_thunk flaky_server) (world_at 0 [] [])
      = (Ret quote, w', j) ∧
    calls j = 3%nat ∧ sleeps j = 2%nat ∧
    sleeps_within 0 (60 + 3) j ∧
    sleeps_within 0 sleep_max j ∧
    upstream w' = upstream_after flaky_server 3 (upstream (world_at 0 [] [])).
Proof.
  apply (execute_recovers_after_failures plain_handler flaky_server 2 quote
           (world_at 0 [] [])).
  - simpl. lia.
  - lia.
  - simpl. lra.
  - simpl. lra.
  - vm_compute. discriminate.
  - intros i Hi. exists timeout_error.
    destruct i as [|[|i]]; [by repeat split|by repeat split|lia].
  - reflexivity.
Defined.

(** X14 on [RetryHandler(max_retries=-1)]. *)
Lemma execute_never_calls_with_negative_retries :
  execute (RetryHandler.__init__ (-1) 5 60 true) always_answers (world_at 0 [] [])
    = (Raise TypeError_raise_None, world_at 0 [] [], []).
Proof.
  apply (execute_without_attempts (RetryHandler.__init__ (-1) 5 60 true)
           always_answers (world_at 0 [] [])).
  simpl. lia.
Defined.

(** X15 on a [KeyboardInterrupt] whose text reads like a timeout. *)
Lemma execute_does_not_retry_interrupt :
  RetryHandler.is_retryable_error interrupt = true ∧
  execute default_handler interrupted (world_at 0 [] [])
    = (Raise interrupt, world_at 0 [] [], [EvCall]).
Proof.
  split; [reflexivity|].
  apply (execute_lets_base_exceptions_through default_handler interrupted
           (world_at 0 [] []) interrupt (world_at 0 [] [])).
  - simpl. lia.
  - reflexivity.
  - reflexivity.
Defined.


(** X17 on an upper-case HTTP error text. *)
Lemma upper_case_forbidden_is_retryable :
  RetryHandler.is_retryable_error
    (mkExn "HTTPError" true ("HTTP Error: " ++ "FORBIDDEN" ++ " for url")) = true.
Proof.
  apply (keyword_anywhere_is_retryable "forbidden" "HTTPError" true
           "HTTP Error: " "FORBIDDEN" " for url").
  - simpl. tauto.
  - reflexivity.
Defined.



(** X21 on a server that answers: the second [cmd_spot --no-cache] does not
    reach it. *)
Lemma no_cache_twice_fetches_once :
  ∃ w2, cmd_spot (fun _ => always_answers) "600519" true
          (snd (fst (cmd_spot (fun _ => always_answers) "600519" true quiet_world)))
        = (Ret spot_output, w2, []).
Proof.
  apply (no_cache_flag_still_caches (fun _ => always_answers) "600519" quiet_world
           spot_output
           (snd (fst (cmd_spot (fun _ => always_answers) "600519" true quiet_world)))
           [EvCall]).
  - vm_compute. reflexivity.
  - exact (le_n 1).
  - vm_compute. reflexivity.
Defined.

(** X23 on the stock code 600403. *)
Lemma no_data_for_600403_is_retried :
  quote_from_qt ("600" ++ "403" ++ "") []
    = Raise (no_data_error ("600" ++ "403" ++ "")) ∧
  exn_is_Exception (no_data_error ("600" ++ "403" ++ "")) = true ∧
  RetryHandler.is_retryable_error (no_data_error ("600" ++ "403" ++ "")) = true.
Proof.
  apply (no_data_error_retryable_by_symbol "403" "600" "403" "").
  - simpl. tauto.
  - reflexivity.
Defined.

(** X24 on two rows around an entry that is not a list. *)
Lemma filter_keeps_january_2 :
  filter_day_data "20240101" "20240102" [day_2; PyInt 0; day_3]
    = Ret (List.map row_fields
             (List.filter (row_in_range "20240101" "20240102") [day_2; PyInt 0; day_3])).
Proof.
  apply (filter_day_data_selects "20240101" "20240102" [day_2; PyInt 0; day_3]).
  constructor; [split; [by exists "2024-01-02"|simpl; lia]|].
  constructor; [exact I|].
  constructor; [split; [by exists "2024-01-03"|simpl; lia]|].
  constructor.
Defined.

(** X25 on a reversed range and a row of two fields. *)
Lemma reversed_range_on_short_row :
  filter_day_data "20240201" "20240101" [day_2; day_4_short] = Ret [].
Proof.
  apply (reversed_range_selects_nothing "20240201" "20240101" [day_2; day_4_short]).
  - reflexivity.
  - constructor; [by exists "2024-01-02"|].
    constructor; [by exists "2024-01-04"|].
    constructor.
Defined.

(** X26 on a row of two fields between two complete ones. *)
Lemma short_row_loses_january :
  filter_day_data "20240101" "20240131"
    ([day_2] ++ PyList [PyStr "2024-01-04"; PyStr "10.10"] :: [day_3])
    = Raise IndexError_list.
Proof.
  apply (short_row_in_range_raises "20240101" "20240131" [day_2]
           [PyStr "2024-01-04"; PyStr "10.10"] [day_3]).
  - constructor; [split; [by exists "2024-01-02"|simpl; lia]|]. constructor.
  - reflexivity.
  - simpl. lia.
Defined.

(** X27 on Eastmoney timing out: [get_minute(source="em")] raises the
    timeout although the router lists Sina as well. *)
Lemma get_minute_em_timeout_is_raised :
  get_minute minute_times_out minute_times_out 1 "000001" 5 "em" "" false quiet_world
    = (Raise timeout_error,
       (if exn_is_Exception timeout_error
        then snd (fst (minute_attempt "em" quiet_world))
        else snd (fst (minute_attempt "em" quiet_world))),
       ([] ++ snd (minute_attempt "em" quiet_world))%list) ∧
  SourceRouter.get_source (SourceRouter.__init__ None) "minute" None = Some "em" ∧
  SourceRouter.candidates (SourceRouter.__init__ None) "minute" = ["em"; "sina"].
Proof.
  split; [|split; reflexivity].
  apply (get_minute_keeps_usable_source minute_times_out minute_times_out
           0 "000001" 5 "em" "" false quiet_world PyNone quiet_world []
           timeout_error (snd (fst (minute_attempt "em" quiet_world)))
           (snd (minute_attempt "em" quiet_world))
           (SourceRouter.__init__ None)
           (snd (fst (minute_attempt "em" quiet_world)))).
  - reflexivity.
  - reflexivity.
  - vm_compute. reflexivity.
  - vm_compute. reflexivity.
  - discriminate.
  - apply list_elem_of_In. vm_compute. tauto.
  - intros H. vm_compute in H. discriminate H.
Defined.

(** X28 on a source the router does not list: [get_minute(source="tx")]
    marks ["tx"] failed and runs again with ["em"]. *)
Lemma get_minute_tx_fails_over_to_em :
  get_minute minute_times_out minute_times_out 2 "000001" 5 "tx" "" false quiet_world
  = (let '(r, w2, j2) :=
       get_minute minute_times_out minute_times_out 1 "000001" 5 "em" "" false
         (with_source_router (snd (fst (minute_attempt "tx" quiet_world)))
            (SourceRouter.mark_failed (SourceRouter.__init__ None) "minute" "tx")) in
     (r, w2, ([] ++ snd (minute_attempt "tx" quiet_world) ++ j2)%list)).
Proof.
  apply (get_minute_fails_over minute_times_out minute_times_out
           1 "000001" 5 "tx" "" false quiet_world PyNone quiet_world []
           timeout_error (snd (fst (minute_attempt "tx" quiet_world)))
           (snd (minute_attempt "tx" quiet_world))
           (SourceRouter.__init__ None)
           (snd (fst (minute_attempt "tx" quiet_world))) "em").
  - reflexivity.
  - reflexivity.
  - vm_compute. reflexivity.
  - reflexivity.
  - vm_compute. reflexivity.
  - reflexivity.
  - discriminate.
  - discriminate.
Defined.

(** X29 on the same run: the second failure, from ["em"], is raised
    although ["sina"] has not been tried. *)
Lemma get_minute_tx_never_reaches_sina :
  get_minute minute_times_out minute_times_out 2 "000001" 5 "tx" "" false quiet_world
  = (Raise timeout_error,
     snd (fst (minute_attempt "em"
                 (with_source_router (snd (fst (minute_attempt "tx" quiet_world)))
                    (SourceRouter.mark_failed (SourceRouter.__init__ None) "minute" "tx")))),
     ([] ++ snd (minute_attempt "tx" quiet_world) ++ [] ++
      snd (minute_attempt "em"
             (with_source_router (snd (fst (minute_attempt "tx" quiet_world)))
                (SourceRouter.mark_failed (SourceRouter.__init__ None) "minute" "tx"))))%list).
Proof.
  apply (get_minute_hops_at_most_once minute_times_out minute_times_out
           0 "000001" 5 "tx" "" false quiet_world PyNone quiet_world []
           timeout_error (snd (fst (minute_attempt "tx" quiet_world)))
           (snd (minute_attempt "tx" quiet_world))
           (SourceRouter.__init__ None)
           (snd (fst (minute_attempt "tx" quiet_world))) "em"
           PyNone
           (with_source_router (snd (fst (minute_attempt "tx" quiet_world)))
              (SourceRouter.mark_failed (SourceRouter.__init__ None) "minute" "tx"))
           [] timeout_error).
  - reflexivity.
  - reflexivity.
  - vm_compute. reflexivity.
  - reflexivity.
  - vm_compute. reflexivity.
  - reflexivity.
  - discriminate.
  - discriminate.
  - reflexivity.
  - reflexivity.
  - vm_compute. reflexivity.
  - vm_compute. reflexivity.
Defined.

(** X10 on a function that answers and on one that returns [None]: the
    first is not run a second time, the second is run on every call. *)
Lemma cached_wrapper_on_answer_and_None :
  (∃ cache,
     _cache (snd (fst (cached_wrapper 300 "key" always_answers quiet_world))) = Some cache ∧
     (quote ≠ PyNone →
      (hd 0 (lags (snd (fst (cached_wrapper 300 "key" always_answers quiet_world))))
         < inject_Z (DataCache.ttl_seconds cache))%Q →
      ∀ ttl' (func' : thunk pyval),
        ∃ w2, cached_wrapper ttl' "key" func'
                (snd (fst (cached_wrapper 300 "key" always_answers quiet_world)))
              = (Ret quote, w2, [])) ∧
     (quote = PyNone →
      ∀ ttl' (func' : thunk pyval),
        ∃ r w2 j2, cached_wrapper ttl' "key" func'
                     (snd (fst (cached_wrapper 300 "key" always_answers quiet_world)))
                   = (r, w2, j2) ∧ (1 <= calls j2)%nat)) ∧
  (∃ cache,
     _cache (snd (fst (cached_wrapper 300 "key" answers_None quiet_world))) = Some cache ∧
     (PyNone ≠ PyNone →
      (hd 0 (lags (snd (fst (cached_wrapper 300 "key" answers_None quiet_world))))
         < inject_Z (DataCache.ttl_seconds cache))%Q →
      ∀ ttl' (func' : thunk pyval),
        ∃ w2, cached_wrapper ttl' "key" func'
                (snd (fst (cached_wrapper 300 "key" answers_None quiet_world)))
              = (Ret PyNone, w2, [])) ∧
     (PyNone = PyNone →
      ∀ ttl' (func' : thunk pyval),
        ∃ r w2 j2, cached_wrapper ttl' "key" func'
                     (snd (fst (cached_wrapper 300 "key" answers_None quiet_world)))
                   = (r, w2, j2) ∧ (1 <= calls j2)%nat)).
Proof.
  split.
  - apply (cached_wrapper_keeps_all_but_None 300 "key" always_answers quiet_world quote
             (snd (fst (cached_wrapper 300 "key" always_answers quiet_world))) [EvCall]).
    + vm_compute. reflexivity.
    + reflexivity.
  - apply (cached_wrapper_keeps_all_but_None 300 "key" answers_None quiet_world PyNone
             (snd (fst (cached_wrapper 300 "key" answers_None quiet_world))) [EvCall]).
    + vm_compute. reflexivity.
    + reflexivity.
Defined.
